(** * only-fan-controller: the decision-and-state engine of the fan controller

    A shallow embedding of [internal/controller/fan.go] (with the parts of
    [internal/config/config.go], [internal/monitor] and [internal/api/server.go]
    it relies on) and the properties of the controller stated over it.

    Conventions of the embedding:
    - a Go [int] is a [Z] holding a 64-bit two's complement value; [go.add],
      [go.sub] and [go.mul] wrap around as the machine does;
    - a [time.Time] is the number of nanoseconds since the zero instant of the
      [time] package, so [IsZero] is a comparison with [0]; a [time.Duration]
      is a 64-bit count of nanoseconds.  Every call to [time.Now()] of the
      source becomes an explicit clock argument of the embedded function;
    - the [sync.RWMutex] is not modelled: each embedded operation is the
      critical section it runs under the lock;
    - Go maps are [gmap]s, slices are lists, a nilable pointer is an [option];
    - a [float64] is a value of the binary64 model of the standard library,
      with its round-to-nearest-even operations;
    - [log.Printf], the [ipmitool] invocation and the history store are the
      events a control cycle emits. *)

From Stdlib Require Import ZArith Lia List Floats Sorted.
From stdpp Require Import gmap strings list fin_maps.

Local Open Scope Z_scope.

(** ** Go integers, durations and instants *)

Module go.

Definition minInt : Z := - 2 ^ 63.
Definition maxInt : Z := 2 ^ 63 - 1.

(** Two's complement reduction of a mathematical integer to an [int]. *)
Definition wrap (z : Z) : Z := (z + 2 ^ 63) mod 2 ^ 64 - 2 ^ 63.

Definition add (x y : Z) : Z := wrap (x + y).
Definition sub (x y : Z) : Z := wrap (x - y).
Definition mul (x y : Z) : Z := wrap (x * y).
(** Go's [/] truncates toward zero. *)
Definition quo (x y : Z) : Z := wrap (Z.quot x y).

(** The value is representable as an [int]. *)
Definition fits (z : Z) : Prop := minInt <= z <= maxInt.

(** The value fits in 32 bits: sums and products of a few such values, as
    the decision function forms them, do not wrap. *)
Definition small (z : Z) : Prop := - 2 ^ 31 <= z <= 2 ^ 31.

(** [time.Duration] constants, in nanoseconds. *)
Definition Second : Z := 1000000000.
Definition Minute : Z := 60 * Second.

Definition minDuration : Z := minInt.
Definition maxDuration : Z := maxInt.

(** [t.IsZero()] *)
Definition IsZero (t : Z) : bool := t =? 0.
(** [t.Before(u)] and [t.After(u)] *)
Definition Before (t u : Z) : bool := t <? u.
Definition After (t u : Z) : bool := t >? u.
(** [t.Add(d)] *)
Definition Add (t d : Z) : Z := t + d.
(** [t.Sub(u)]: the difference, saturated to the range of a Duration. *)
Definition Sub (t u : Z) : Z :=
  if t - u <? minDuration then minDuration
  else if t - u >? maxDuration then maxDuration
  else t - u.

(** A [float64] is a binary64 value of the IEEE 754 model of the standard
    library ([prec = 53], [emax = 1024]); the operations round to nearest,
    ties to even, as Go's do. *)
Definition float64 : Type := spec_float.

(** The conversion [float64(n)] of an integer. *)
Definition float64_of_int (n : Z) : float64 :=
  binary_normalize prec emax n 0 false.

Definition fzero : float64 := S754_zero false.

(** [d.Minutes()]:
    [min := d / Minute; nsec := d % Minute;
     return float64(min) + float64(nsec)/(60*1e9)]. *)
Definition Minutes (d : Z) : float64 :=
  let min := Z.quot d Minute in
  let nsec := Z.rem d Minute in
  SF64add (float64_of_int min)
          (SF64div (float64_of_int nsec) (float64_of_int 60000000000)).

End go.

(** ** internal/config *)

Module config.

Record Zone := mkZone {
  Name : string;
  CPUMax : Z;
  GPUMax : Z;
  FanSpeed : Z
}.

Record FanControlConfig := mkFanControlConfig {
  MinSpeed : Z;
  MaxSpeed : Z;
  IdleSpeed : Z;
  CPUThreshold : Z;
  GPUThreshold : Z;
  StepSize : Z;
  CooldownDelay : Z;
  RampUpStep : Z;
  RampDownStep : Z;
  ConstantIdle : bool
}.

Record MonitoringConfig := mkMonitoringConfig {
  Interval : Z;
  HistoryRetention : Z
}.

(** The fields of [Config] the controller reads. *)
Record Config := mkConfig {
  Monitoring : MonitoringConfig;
  Zones : list Zone;
  FanControl : FanControlConfig
}.

(** [Default()] *)
Definition Default : Config :=
  {| Monitoring := {| Interval := 10; HistoryRetention := 3600 |};
     Zones :=
       [ mkZone "idle" 45 40 10;
         mkZone "normal" 60 70 25;
         mkZone "warm" 70 80 45;
         mkZone "hot" 80 85 70;
         mkZone "critical" 999 999 100 ];
     FanControl :=
       {| MinSpeed := 5;
          MaxSpeed := 100;
          IdleSpeed := 20;
          CPUThreshold := 65;
          GPUThreshold := 60;
          StepSize := 10;
          CooldownDelay := 60;
          RampUpStep := 10;
          RampDownStep := 5;
          ConstantIdle := true |} |}.

End config.

(** ** internal/monitor *)

Module monitor.

Record CPUReading := mkCPUReading {
  Temps : list Z;
  CPU_Max : Z
}.

Record GPUDevice := mkGPUDevice {
  Index : Z;
  Name : string;
  Temp : Z;
  Utilization : Z;
  MemoryUsed : Z;
  MemoryTotal : Z;
  PowerDraw : Z
}.

Record GPUReading := mkGPUReading {
  Devices : list GPUDevice;
  GPU_Max : Z
}.

End monitor.

(** ** internal/controller *)

Module controller.

Import config monitor.

Record tempPoint := mkTempPoint {
  temp : Z;
  timestamp : Z
}.

Record WorkloadHint := mkWorkloadHint {
  Type_ : string;
  Action : string;
  Intensity : string;
  Source : string;
  MinFanSpeed : Z;
  Hint_ExpiresAt : Z;
  Hint_CreatedAt : Z
}.

Record Override := mkOverride {
  Speed : Z;
  Reason : string;
  ExpiresAt : Z;
  CreatedAt : Z
}.

(** The state of a [FanController].  The monitors, the store, the mutex and
    the stop channel are the collaborators of the cycle and appear as its
    inputs and events, not as state. *)
Record FanController := mkFanController {
  cfg : Config;
  currentSpeed : Z;
  targetSpeed : Z;
  currentZone : string;
  lastCPUReading : option CPUReading;
  lastGPUReading : option GPUReading;
  hints : gmap string WorkloadHint;
  override : option Override;
  running : bool;
  cpuHistory : list tempPoint;
  gpuHistory : list tempPoint;
  lastOverThreshold : Z
}.

(** [NewFanController]: every field other than the configuration and the
    empty containers has the zero value of its type. *)
Definition NewFanController (c : Config) : FanController :=
  {| cfg := c;
     currentSpeed := 0;
     targetSpeed := 0;
     currentZone := "";
     lastCPUReading := None;
     lastGPUReading := None;
     hints := ∅;
     override := None;
     running := false;
     cpuHistory := [];
     gpuHistory := [];
     lastOverThreshold := 0 |}.

(** Field updates. *)
Definition set_currentSpeed (v : Z) (fc : FanController) : FanController :=
  mkFanController (cfg fc) v (targetSpeed fc) (currentZone fc)
    (lastCPUReading fc) (lastGPUReading fc) (hints fc) (override fc)
    (running fc) (cpuHistory fc) (gpuHistory fc) (lastOverThreshold fc).

Definition set_targetSpeed (v : Z) (fc : FanController) : FanController :=
  mkFanController (cfg fc) (currentSpeed fc) v (currentZone fc)
    (lastCPUReading fc) (lastGPUReading fc) (hints fc) (override fc)
    (running fc) (cpuHistory fc) (gpuHistory fc) (lastOverThreshold fc).

Definition set_currentZone (v : string) (fc : FanController) : FanController :=
  mkFanController (cfg fc) (currentSpeed fc) (targetSpeed fc) v
    (lastCPUReading fc) (lastGPUReading fc) (hints fc) (override fc)
    (running fc) (cpuHistory fc) (gpuHistory fc) (lastOverThreshold fc).

Definition set_lastReadings (c : CPUReading) (g : GPUReading)
    (fc : FanController) : FanController :=
  mkFanController (cfg fc) (currentSpeed fc) (targetSpeed fc) (currentZone fc)
    (Some c) (Some g) (hints fc) (override fc)
    (running fc) (cpuHistory fc) (gpuHistory fc) (lastOverThreshold fc).

Definition set_hints (v : gmap string WorkloadHint) (fc : FanController)
    : FanController :=
  mkFanController (cfg fc) (currentSpeed fc) (targetSpeed fc) (currentZone fc)
    (lastCPUReading fc) (lastGPUReading fc) v (override fc)
    (running fc) (cpuHistory fc) (gpuHistory fc) (lastOverThreshold fc).

Definition set_override (v : option Override) (fc : FanController)
    : FanController :=
  mkFanController (cfg fc) (currentSpeed fc) (targetSpeed fc) (currentZone fc)
    (lastCPUReading fc) (lastGPUReading fc) (hints fc) v
    (running fc) (cpuHistory fc) (gpuHistory fc) (lastOverThreshold fc).

Definition set_running (v : bool) (fc : FanController) : FanController :=
  mkFanController (cfg fc) (currentSpeed fc) (targetSpeed fc) (currentZone fc)
    (lastCPUReading fc) (lastGPUReading fc) (hints fc) (override fc)
    v (cpuHistory fc) (gpuHistory fc) (lastOverThreshold fc).

Definition set_history (c g : list tempPoint) (fc : FanController)
    : FanController :=
  mkFanController (cfg fc) (currentSpeed fc) (targetSpeed fc) (currentZone fc)
    (lastCPUReading fc) (lastGPUReading fc) (hints fc) (override fc)
    (running fc) c g (lastOverThreshold fc).

Definition set_lastOverThreshold (v : Z) (fc : FanController) : FanController :=
  mkFanController (cfg fc) (currentSpeed fc) (targetSpeed fc) (currentZone fc)
    (lastCPUReading fc) (lastGPUReading fc) (hints fc) (override fc)
    (running fc) (cpuHistory fc) (gpuHistory fc) v.

(** [min] and [max] of fan.go. *)
Definition min (a b : Z) : Z := if a <? b then a else b.
Definition max (a b : Z) : Z := if a >? b then a else b.

(** *** The locals of [calculateTarget] *)

Section decision.

Variable fcc : FanControlConfig.

(** [baseSpeed]: the idle speed, 20 when it is configured 0. *)
Definition baseSpeed : Z :=
  if IdleSpeed fcc =? 0 then 20 else IdleSpeed fcc.

Definition cpuThreshold : Z :=
  if CPUThreshold fcc =? 0 then 65 else CPUThreshold fcc.

Definition gpuThreshold : Z :=
  if GPUThreshold fcc =? 0 then 60 else GPUThreshold fcc.

Definition stepSize : Z :=
  if StepSize fcc =? 0 then 10 else StepSize fcc.

(** [time.Duration(CooldownDelay) * time.Second], 60 s when that is 0. *)
Definition cooldownDuration : Z :=
  let d := go.mul (CooldownDelay fcc) go.Second in
  if d =? 0 then go.mul 60 go.Second else d.

Definition overThreshold (cpuMax gpuMax : Z) : bool :=
  (cpuMax >? cpuThreshold) || (gpuMax >? gpuThreshold).

(** The zone name, for display. *)
Definition zoneName (cpuMax gpuMax : Z) : string :=
  if (cpuMax >? 80) || (gpuMax >? 85) then "hot"
  else if (cpuMax >? 70) || (gpuMax >? 75) then "warm"
  else if overThreshold cpuMax gpuMax then "active"
  else "idle".

(** [neededSpeed] of the over-threshold branch. *)
Definition neededSpeed (cpuMax gpuMax : Z) : Z :=
  let cpuOver := max 0 (go.sub cpuMax cpuThreshold) in
  let gpuOver := max 0 (go.sub gpuMax gpuThreshold) in
  let maxOver := max cpuOver gpuOver in
  let stepsNeeded := go.add (go.quo maxOver 5) 1 in
  go.add baseSpeed (go.mul stepsNeeded stepSize).

(** The value of [target] at the end of the over-threshold branch. *)
Definition rampUp (target cpuMax gpuMax : Z) : Z :=
  let neededSpeed := neededSpeed cpuMax gpuMax in
  if neededSpeed >? target
  then min (go.add target stepSize) neededSpeed
  else target.

(** The value of [target] at the end of the below-threshold branch. *)
Definition rampDown (target lastOver now : Z) : Z :=
  if go.IsZero lastOver then baseSpeed
  else if go.Sub now lastOver >? cooldownDuration then
    if target >? baseSpeed then
      let target := go.sub target stepSize in
      if target <? baseSpeed then baseSpeed else target
    else baseSpeed
  else target.

(** The clamp to the configured limits. *)
Definition clamp (target : Z) : Z :=
  max (MinSpeed fcc) (min (MaxSpeed fcc) target).

End decision.

(** The floor the registered hints put under the target: the largest
    [MinFanSpeed], 0 without hints. *)
Definition hintMinSpeed (hs : gmap string WorkloadHint) : Z :=
  map_fold (fun _ hint acc =>
              if MinFanSpeed hint >? acc then MinFanSpeed hint else acc)
           0 hs.

Definition applyHintMin (hintMin target : Z) : Z :=
  if hintMin >? target then hintMin else target.

(** [calculateTarget], with [now] the reading of the clock it takes.
    Returns the controller after the call and the target. *)
Definition calculateTarget (cpuReading : CPUReading) (gpuReading : GPUReading)
    (now : Z) (fc : FanController) : FanController * Z :=
  let cpuMax := CPU_Max cpuReading in
  let gpuMax := GPU_Max gpuReading in
  match override fc with
  | Some o => (fc, Speed o)
  | None =>
    let fcc := FanControl (cfg fc) in
    let hintMin := hintMinSpeed (hints fc) in
    let over := overThreshold fcc cpuMax gpuMax in
    let fc := set_currentZone (zoneName fcc cpuMax gpuMax) fc in
    let target := currentSpeed fc in
    let '(fc, target) :=
      if over
      then (set_lastOverThreshold now fc, rampUp fcc target cpuMax gpuMax)
      else (fc, rampDown fcc target (lastOverThreshold fc) now) in
    let target := applyHintMin hintMin target in
    let target := clamp fcc target in
    (set_targetSpeed target fc, target)
  end.

(** The constant [0.1] as a [float64]: the binary64 value nearest to one
    tenth, [0x1.999999999999ap-4]. *)
Definition tenth : go.float64 := S754_finite false 7205759403792794 (-56).

(** The samples of [history] taken after [cutoff], in order. *)
Definition after (cutoff : Z) (history : list tempPoint) : list tempPoint :=
  List.filter (fun p => go.After (timestamp p) cutoff) history.

(** [calculateTrend], with [now] the reading of the clock it takes. *)
Definition calculateTrend (history : list tempPoint) (now : Z) : go.float64 :=
  if (Z.of_nat (length history) <? 2) then go.fzero
  else
    let cutoff := go.Add now (go.mul (-60) go.Second) in
    let recent := after cutoff history in
    if (Z.of_nat (length recent) <? 2) then go.fzero
    else
      match head recent, last recent with
      | Some first, Some last =>
        let duration :=
          go.Minutes (go.Sub (timestamp last) (timestamp first)) in
        if SFltb duration tenth then go.fzero
        else SF64div (go.float64_of_int (go.sub (temp last) (temp first)))
                     duration
      | _, _ => go.fzero
      end.

(** The [cutoff] of [trimHistory]:
    [time.Now().Add(-time.Duration(HistoryRetention) * time.Second)]. *)
Definition trimCutoff (now : Z) (c : Config) : Z :=
  go.Add now (go.mul (go.sub 0 (HistoryRetention (Monitoring c))) go.Second).

(** [trimHistory] *)
Definition trimHistory (now : Z) (fc : FanController) : FanController :=
  let cutoff := trimCutoff now (cfg fc) in
  set_history (after cutoff (cpuHistory fc)) (after cutoff (gpuHistory fc)) fc.

(** The expiry test of [cleanExpired], on an [ExpiresAt]. *)
Definition expired (expiresAt now : Z) : bool :=
  negb (go.IsZero expiresAt) && go.Before expiresAt now.

(** [cleanExpired] *)
Definition cleanExpired (now : Z) (fc : FanController) : FanController :=
  let fc :=
    set_hints
      (filter (fun kv => expired (Hint_ExpiresAt kv.2) now = false) (hints fc))
      fc in
  match override fc with
  | Some o => if expired (ExpiresAt o) now then set_override None fc else fc
  | None => fc
  end.

(** [setFanSpeed]: records the speed and runs [ipmitool]; [run] is the
    error of [cmd.Run()], [None] for [nil]. *)
Definition setFanSpeed (speed : Z) (run : option string) (fc : FanController)
    : FanController * option string :=
  (set_currentSpeed speed fc, run).

(** [AddHint], called with a hint of its own by the API handler, which
    allocates one per request: the registry holds values. *)
Definition AddHint (hint : WorkloadHint) (now : Z) (fc : FanController)
    : FanController :=
  let minFanSpeed :=
    if String.eqb (Intensity hint) "high" then 45
    else if String.eqb (Intensity hint) "medium" then 25
    else if String.eqb (Intensity hint) "low" then 15
    else 25 in
  let hint :=
    mkWorkloadHint (Type_ hint) (Action hint) (Intensity hint) (Source hint)
      minFanSpeed (Hint_ExpiresAt hint) now in
  set_hints (<[Source hint := hint]> (hints fc)) fc.

(** [RemoveHint] *)
Definition RemoveHint (source : string) (fc : FanController) : FanController :=
  set_hints (delete source (hints fc)) fc.

(** [SetOverride]; [created] and [now] are its two readings of the clock. *)
Definition SetOverride (speed duration : Z) (reason : string)
    (created now : Z) (fc : FanController) : FanController :=
  let o := mkOverride speed reason 0 created in
  let o :=
    if duration >? 0
    then mkOverride (Speed o) (Reason o) (go.Add now duration) (CreatedAt o)
    else o in
  set_override (Some o) fc.

(** [ClearOverride] *)
Definition ClearOverride (fc : FanController) : FanController :=
  set_override None fc.

Record Status := mkStatus {
  st_Timestamp : Z;
  st_CPU : option CPUReading;
  st_GPU : option GPUReading;
  st_CurrentSpeed : Z;
  st_TargetSpeed : Z;
  st_Zone : string;
  st_Mode : string;
  st_ActiveHints : list WorkloadHint;
  st_Override : option Override;
  st_CPUTrend : go.float64;
  st_GPUTrend : go.float64;
  st_Zones : list Zone;
  st_CPUThreshold : Z;
  st_GPUThreshold : Z;
  st_IdleSpeed : Z
}.

(** [GetStatus]; [now] is the reading of the clock of [Timestamp], [tc] and
    [tg] those of the two calls of [calculateTrend]. *)
Definition GetStatus (now tc tg : Z) (fc : FanController) : Status :=
  let hs := (map_to_list (hints fc)).*2 in
  let mode :=
    match override fc with
    | Some _ => "override"
    | None => if Z.of_nat (size (hints fc)) >? 0 then "hinted" else "auto"
    end in
  let cpuThreshold := CPUThreshold (FanControl (cfg fc)) in
  let gpuThreshold := GPUThreshold (FanControl (cfg fc)) in
  let cpuThreshold := if cpuThreshold =? 0 then 65 else cpuThreshold in
  let gpuThreshold := if gpuThreshold =? 0 then 60 else gpuThreshold in
  {| st_Timestamp := now;
     st_CPU := lastCPUReading fc;
     st_GPU := lastGPUReading fc;
     st_CurrentSpeed := currentSpeed fc;
     st_TargetSpeed := targetSpeed fc;
     st_Zone := currentZone fc;
     st_Mode := mode;
     st_ActiveHints := hs;
     st_Override := override fc;
     st_CPUTrend := calculateTrend (cpuHistory fc) tc;
     st_GPUTrend := calculateTrend (gpuHistory fc) tg;
     st_Zones := Zones (cfg fc);
     st_CPUThreshold := cpuThreshold;
     st_GPUThreshold := gpuThreshold;
     st_IdleSpeed := IdleSpeed (FanControl (cfg fc)) |}.

(** *** The control cycle *)

(** What a cycle does to the world outside the controller. *)
Inductive event :=
| LogCPUReadError (err : string)
| LogGPUReadError (err : string)
| IpmiSetSpeed (speed : Z)
| LogSetSpeedFailed (err : string)
| RecordReading (cpuTemp gpuTemp fanSpeed : Z)
| LogCycle (cpuMax gpuMax : Z) (zone : string) (fan : Z).

(** What a cycle takes from the world: the outcome of the two sensor reads
    (a reading, or the error), its readings of the clock in the order it
    takes them, and the outcome of the [ipmitool] run. *)
Record cycleInput := mkCycleInput {
  cpuRead : CPUReading + string;
  gpuRead : GPUReading + string;
  tAppend : Z;
  tTrim : Z;
  tClean : Z;
  tDecide : Z;
  ipmiRun : option string
}.

Record cycleOutput := mkCycleOutput {
  after_cycle : FanController;
  cycle_target : Z;
  cycle_events : list event
}.

(** [controlLoop] *)
Definition controlLoop (inp : cycleInput) (fc : FanController) : cycleOutput :=
  let '(cpuReading, cpuLog) :=
    match cpuRead inp with
    | inl r => (r, [])
    | inr err => (mkCPUReading [] 0, [LogCPUReadError err])
    end in
  let '(gpuReading, gpuLog) :=
    match gpuRead inp with
    | inl r => (r, [])
    | inr err => (mkGPUReading [] 0, [LogGPUReadError err])
    end in
  let fc := set_lastReadings cpuReading gpuReading fc in
  let now := tAppend inp in
  let fc :=
    set_history
      (cpuHistory fc ++ [mkTempPoint (CPU_Max cpuReading) now])
      (gpuHistory fc ++ [mkTempPoint (GPU_Max gpuReading) now]) fc in
  let fc := trimHistory (tTrim inp) fc in
  let fc := cleanExpired (tClean inp) fc in
  let '(fc, target) := calculateTarget cpuReading gpuReading (tDecide inp) fc in
  let '(fc, err) := setFanSpeed target (ipmiRun inp) fc in
  let setLog :=
    match err with
    | Some e => [LogSetSpeedFailed e]
    | None => []
    end in
  {| after_cycle := fc;
     cycle_target := target;
     cycle_events :=
       cpuLog ++ gpuLog ++ [IpmiSetSpeed target] ++ setLog
       ++ [RecordReading (CPU_Max cpuReading) (GPU_Max gpuReading) target;
           LogCycle (CPU_Max cpuReading) (GPU_Max gpuReading)
                    (currentZone fc) target] |}.

(** A run of cycles, with no call of the API in between: the controller
    after the last one and the targets in order. *)
Fixpoint runCycles (inps : list cycleInput) (fc : FanController)
    : FanController * list Z :=
  match inps with
  | [] => (fc, [])
  | inp :: rest =>
    let out := controlLoop inp fc in
    let '(fc', ts) := runCycles rest (after_cycle out) in
    (fc', cycle_target out :: ts)
  end.

End controller.

Import go config monitor controller.

(** Concrete controllers, readings and hints used in the examples. *)

Definition cool : CPUReading := mkCPUReading [40; 38] 40.
Definition hot90 : CPUReading := mkCPUReading [90; 88] 90.
Definition noGPU : GPUReading := mkGPUReading [] 0.

(** A controller on the default configuration, idling at 20%. *)
Definition idling : FanController :=
  set_currentSpeed 20 (NewFanController Default).

(** A controller that left an over-threshold period at instant [1000 s]
    and still runs at 50%. *)
Definition cooling : FanController :=
  set_lastOverThreshold (1000 * Second)
    (set_currentSpeed 50 (NewFanController Default)).

(** The default configuration with the limits the wrong way round. *)
Definition crossedLimits : Config :=
  mkConfig (Monitoring Default) (Zones Default)
    (mkFanControlConfig 50 30 20 65 60 10 60 10 5 true).

(** The default configuration with the idle speed left to its default. *)
Definition idleUnset : Config :=
  mkConfig (Monitoring Default) (Zones Default)
    (mkFanControlConfig 5 100 0 0 0 10 60 10 5 true).

(** A cycle at instant [t] with a CPU at 90 degrees, no GPU and a working
    actuator. *)
Definition hotCycle (t : Z) : cycleInput :=
  mkCycleInput (inl hot90) (inl noGPU) t t t t None.

(** A cycle at instant [t] with a CPU at 40 degrees, no GPU and a working
    actuator. *)
Definition coolCycle (t : Z) : cycleInput :=
  mkCycleInput (inl cool) (inl noGPU) t t t t None.

(** A cycle at instant [t] in which both sensor reads and the actuator
    fail. *)
Definition blindCycle (t : Z) : cycleInput :=
  mkCycleInput (inr "exit status 1") (inr "nvidia-smi: not found") t t t t
               (Some "exit status 1").

(** A CPU history of three samples over thirty seconds. *)
Definition rising : list tempPoint :=
  [ mkTempPoint 40 (1000 * Second);
    mkTempPoint 43 (1010 * Second);
    mkTempPoint 46 (1030 * Second) ].

(** A controller with one registered hint, from source "whisper". *)
Definition transcribing : FanController :=
  AddHint (mkWorkloadHint "gpu_load" "start" "high" "whisper" 0 0 0)
          Second idling.

(** The calls the API server and the ticker make on a controller. *)
Inductive operation :=
| OpAddHint (hint : WorkloadHint) (now : Z)
| OpRemoveHint (source : string)
| OpSetOverride (speed duration : Z) (reason : string) (created now : Z)
| OpClearOverride
| OpCycle (inp : cycleInput).

Definition perform (op : operation) (fc : FanController) : FanController :=
  match op with
  | OpAddHint hint now => AddHint hint now fc
  | OpRemoveHint source => RemoveHint source fc
  | OpSetOverride speed duration reason created now =>
    SetOverride speed duration reason created now fc
  | OpClearOverride => ClearOverride fc
  | OpCycle inp => after_cycle (controlLoop inp fc)
  end.

Definition performAll (ops : list operation) (fc : FanController)
    : FanController :=
  fold_left (fun fc op => perform op fc) ops fc.

(** The operation does not register a hint for [source]. *)
Definition keeps (source : string) (op : operation) : Prop :=
  match op with
  | OpAddHint hint _ => Source hint <> source
  | _ => True
  end.





(** ** The functions around the controller *)

(** *** internal/monitor: the maximum of a reading *)

Module readings.

(** [maxInt]: the largest value, 0 for no values. *)
Definition maxInt (vals : list Z) : Z :=
  match vals with
  | [] => 0
  | v0 :: rest =>
    fold_left (fun max v => if v >? max then v else max) rest v0
  end.

(** [maxGPUTemp]: the largest device temperature above 0, 0 otherwise. *)
Definition maxGPUTemp (devices : list GPUDevice) : Z :=
  fold_left (fun max d => if Temp d >? max then Temp d else max) devices 0.

(** The reading [CPUMonitor.Read] builds from the parsed temperatures. *)
Definition cpuReadingOf (temps : list Z) : CPUReading :=
  mkCPUReading temps (maxInt temps).

(** The reading [GPUMonitor.Read] builds from the parsed devices. *)
Definition gpuReadingOf (devices : list GPUDevice) : GPUReading :=
  mkGPUReading devices (maxGPUTemp devices).

End readings.

(** *** internal/config: the zone of a pair of temperatures *)

(** The loop of [GetZone]: the first zone whose two bounds cover the
    temperatures. *)
Fixpoint firstCovering (zones : list Zone) (cpuTemp gpuTemp : Z)
    : option Zone :=
  match zones with
  | [] => None
  | zone :: rest =>
    if (cpuTemp <=? CPUMax zone) && (gpuTemp <=? GPUMax zone)
    then Some zone
    else firstCovering rest cpuTemp gpuTemp
  end.

(** [GetZone]; [None] is the index-out-of-range panic of
    [c.Zones[len(c.Zones)-1]] on a configuration without zones. *)
Definition GetZone (c : Config) (cpuTemp gpuTemp : Z) : option Zone :=
  match firstCovering (Zones c) cpuTemp gpuTemp with
  | Some zone => Some zone
  | None => last (Zones c)
  end.

(** *** internal/api: the handlers that change the controller *)

Module api.

(** [HintRequest]; [type], [action] and [source] are tagged
    [binding:"required"]. *)
Record HintRequest := mkHintRequest {
  req_Type : string;
  req_Action : string;
  req_Intensity : string;
  req_DurationEstimate : Z;
  req_Source : string
}.

(** [OverrideRequest]; [speed] is tagged [binding:"required"]. *)
Record OverrideRequest := mkOverrideRequest {
  req_Speed : Z;
  req_Duration : Z;
  req_Reason : string
}.

(** Why a handler refuses a request: the body is not JSON of the request
    type ([err] is the message of the decoder), fields tagged
    [binding:"required"] hold the zero value of their type, or the handler
    has a message of its own. *)
Inductive refusal :=
| Malformed (err : string)
| Required (fields : list string)
| Message (text : string).

(** The JSON replies of the handlers, with the fields they carry. *)
Inductive reply :=
| BadRequest (error : refusal)
| HintRemoved (source : string)
| HintRegistered (hint : WorkloadHint)
| OverrideSet (speed duration : Z)
| OverrideCleared.

(** The HTTP status of a reply. *)
Definition statusCode (r : reply) : Z :=
  match r with
  | BadRequest _ => 400
  | _ => 200
  end.

(** The fields of a [HintRequest] tagged [binding:"required"] that hold the
    zero value of their type, in the order of the struct. *)
Definition missingHint (req : HintRequest) : list string :=
  (if String.eqb (req_Type req) "" then ["Type"] else [])
  ++ (if String.eqb (req_Action req) "" then ["Action"] else [])
  ++ (if String.eqb (req_Source req) "" then ["Source"] else []).

(** The same for an [OverrideRequest], whose one required field is the
    integer [Speed]. *)
Definition missingOverride (req : OverrideRequest) : list string :=
  if req_Speed req =? 0 then ["Speed"] else [].

(** [ShouldBindJSON]: [decoded] is the outcome of decoding the body into the
    request struct, in which a field absent from the body has the zero value
    of its type, or the error of the decoder; the validation of the
    [binding:"required"] tags follows and refuses a struct with a required
    field at its zero value. *)
Definition ShouldBindJSON {A : Type} (missing : A -> list string)
    (decoded : A + string) : A + refusal :=
  match decoded with
  | inr err => inr (Malformed err)
  | inl req =>
    match missing req with
    | [] => inl req
    | fields => inr (Required fields)
    end
  end.

(** [handleHint]; [decoded] is the body as decoded, [tExpires] the reading
    of the clock of the handler and [tCreated] the one of [AddHint]. *)
Definition handleHint (decoded : HintRequest + string) (tExpires tCreated : Z)
    (fc : FanController) : reply * FanController :=
  match ShouldBindJSON missingHint decoded with
  | inr err => (BadRequest err, fc)
  | inl req =>
    if String.eqb (req_Action req) "stop"
    then (HintRemoved (req_Source req), RemoveHint (req_Source req) fc)
    else
      let hint :=
        mkWorkloadHint (req_Type req) (req_Action req) (req_Intensity req)
                       (req_Source req) 0 0 0 in
      let hint :=
        if req_DurationEstimate req >? 0
        then mkWorkloadHint (Type_ hint) (Action hint) (Intensity hint)
               (Source hint) (MinFanSpeed hint)
               (go.Add tExpires (go.mul (req_DurationEstimate req) go.Second))
               (Hint_CreatedAt hint)
        else hint in
      let fc := AddHint hint tCreated fc in
      (HintRegistered (default hint (hints fc !! Source hint)), fc)
  end.

(** [handleRemoveHint] *)
Definition handleRemoveHint (source : string) (fc : FanController)
    : reply * FanController :=
  (HintRemoved source, RemoveHint source fc).

(** [handleOverride]; [decoded] is the body as decoded, [created] and [now]
    are the readings of the clock of [SetOverride]. *)
Definition handleOverride (decoded : OverrideRequest + string) (created now : Z)
    (fc : FanController) : reply * FanController :=
  match ShouldBindJSON missingOverride decoded with
  | inr err => (BadRequest err, fc)
  | inl req =>
    if (req_Speed req <? 0) || (req_Speed req >? 100)
    then (BadRequest (Message "speed must be 0-100"), fc)
    else
      let duration := go.mul (req_Duration req) go.Second in
      (OverrideSet (req_Speed req) (req_Duration req),
       SetOverride (req_Speed req) duration (req_Reason req) created now fc)
  end.

(** [handleClearOverride] *)
Definition handleClearOverride (fc : FanController) : reply * FanController :=
  (OverrideCleared, ClearOverride fc).

End api.

(** *** The demo controller *)

Module mock.

(** What a demo cycle does outside the controller: the row for the history
    store and the log line. *)
Inductive event :=
| RecordReading (cpuTemp gpuTemp fanSpeed : Z)
| LogCycle (cpuMax gpuMax : Z) (zone : string) (fan : Z).

(** What a demo cycle takes: the two readings it generates and its readings
    of the clock. *)
Record cycleInput := mkCycleInput {
  cpuReading : CPUReading;
  gpuReading : GPUReading;
  tAppend : Z;
  tTrim : Z;
  tClean : Z;
  tDecide : Z
}.

(** [mockControlLoop] *)
Definition mockControlLoop (inp : cycleInput) (fc : FanController)
    : FanController * Z * list event :=
  let cpuReading := cpuReading inp in
  let gpuReading := gpuReading inp in
  let fc := set_lastReadings cpuReading gpuReading fc in
  let now := tAppend inp in
  let fc :=
    set_history
      (cpuHistory fc ++ [mkTempPoint (CPU_Max cpuReading) now])
      (gpuHistory fc ++ [mkTempPoint (GPU_Max gpuReading) now]) fc in
  let fc := trimHistory (tTrim inp) fc in
  let fc := cleanExpired (tClean inp) fc in
  let '(fc, target) := calculateTarget cpuReading gpuReading (tDecide inp) fc in
  let fc := set_currentSpeed target fc in
  (fc, target,
   [RecordReading (CPU_Max cpuReading) (GPU_Max gpuReading) target;
    LogCycle (CPU_Max cpuReading) (GPU_Max gpuReading) (currentZone fc) target]).

End mock.

(** *** Runs of cycles on constant readings *)

(** The cycle reads, or substitutes, readings of these maxima. *)
Definition reads (cpuMax gpuMax : Z) (inp : cycleInput) : Prop :=
  match cpuRead inp with
  | inl r => CPU_Max r = cpuMax
  | inr _ => cpuMax = 0
  end
  /\ match gpuRead inp with
     | inl r => GPU_Max r = gpuMax
     | inr _ => gpuMax = 0
     end.

(** ** Arithmetic of the embedding *)

Lemma wrap_fits z : fits z -> wrap z = z.
Proof.
  unfold fits, minInt, maxInt, wrap. intros H.
  rewrite Z.mod_small by lia. lia.
Qed.

Lemma wrap_is_int z : fits (wrap z).
Proof.
  unfold fits, minInt, maxInt, wrap.
  pose proof (Z.mod_pos_bound (z + 2 ^ 63) (2 ^ 64) ltac:(lia)). lia.
Qed.

Lemma min_Zmin a b : controller.min a b = Z.min a b.
Proof. unfold controller.min. destruct (Z.ltb_spec a b); lia. Qed.

Lemma max_Zmax a b : controller.max a b = Z.max a b.
Proof.
  unfold controller.max. rewrite Z.gtb_ltb. destruct (Z.ltb_spec b a); lia.
Qed.

Lemma small_fits z : small z -> fits z.
Proof. unfold small, fits, minInt, maxInt. lia. Qed.




Lemma stepSize_small fcc : small (StepSize fcc) -> small (stepSize fcc).
Proof. unfold stepSize, small. destruct (_ =? _); lia. Qed.

(** A step that is not configured negative is positive once defaulted. *)
Lemma stepSize_pos fcc : 0 <= StepSize fcc -> 0 < stepSize fcc.
Proof. unfold stepSize. destruct (Z.eqb_spec (StepSize fcc) 0); lia. Qed.

(** The cool-down of a configuration, 60 s when it is configured 0. *)
Lemma cooldownDuration_eq fcc :
  small (CooldownDelay fcc) ->
  cooldownDuration fcc =
    if CooldownDelay fcc =? 0 then 60 * Second else CooldownDelay fcc * Second.
Proof.
  unfold cooldownDuration, go.mul, small, Second. intros H.
  rewrite !wrap_fits by (unfold fits, minInt, maxInt; lia).
  destruct (Z.eqb_spec (CooldownDelay fcc) 0) as [->|Hne]; [reflexivity|].
  destruct (Z.eqb_spec (CooldownDelay fcc * 1000000000) 0); [lia|reflexivity].
Qed.

(** On the durations a configuration can hold, saturation of [Sub] does not
    change the outcome of the comparison with the cool-down. *)
Lemma Sub_gt_cooldown fcc now last :
  small (CooldownDelay fcc) ->
  (Sub now last >? cooldownDuration fcc) = (now - last >? cooldownDuration fcc).
Proof.
  intros H. rewrite (cooldownDuration_eq _ H).
  unfold Sub, minDuration, maxDuration, minInt, maxInt, small, Second in *.
  destruct (CooldownDelay fcc =? 0);
    destruct (Z.ltb_spec (now - last) (- 2 ^ 63));
    destruct (Z.gtb_spec (now - last) (2 ^ 63 - 1));
    rewrite ?Z.gtb_ltb; repeat (destruct (Z.ltb_spec _ _)); lia.
Qed.


(** ** The decision function *)

(** The setters of the decision leave the configuration, the speed in force,
    the registry and the override alone. *)
Lemma calculateTarget_frame cpuReading gpuReading now fc :
  let fc' := (calculateTarget cpuReading gpuReading now fc).1 in
  cfg fc' = cfg fc /\ currentSpeed fc' = currentSpeed fc
  /\ hints fc' = hints fc /\ override fc' = override fc
  /\ cpuHistory fc' = cpuHistory fc /\ gpuHistory fc' = gpuHistory fc.
Proof.
  unfold calculateTarget. destruct (override fc) eqn:Ho; simpl; [tauto|].
  destruct (overThreshold _ _ _); simpl; tauto.
Qed.

(** Without an override the decision is the threshold control: the branch
    target, lifted to the hint floor, clamped, stored and returned. *)
Lemma calculateTarget_auto cpuReading gpuReading now fc :
  override fc = None ->
  let fcc := FanControl (cfg fc) in
  let cpuMax := CPU_Max cpuReading in
  let gpuMax := GPU_Max gpuReading in
  let branch :=
    if overThreshold fcc cpuMax gpuMax
    then rampUp fcc (currentSpeed fc) cpuMax gpuMax
    else rampDown fcc (currentSpeed fc) (lastOverThreshold fc) now in
  let target := clamp fcc (applyHintMin (hintMinSpeed (hints fc)) branch) in
  let fc' := (calculateTarget cpuReading gpuReading now fc).1 in
  (calculateTarget cpuReading gpuReading now fc).2 = target
  /\ targetSpeed fc' = target
  /\ currentZone fc' = zoneName fcc cpuMax gpuMax
  /\ lastOverThreshold fc' =
       if overThreshold fcc cpuMax gpuMax then now else lastOverThreshold fc.
Proof.
  intros Ho. unfold calculateTarget. rewrite Ho. simpl.
  destruct (overThreshold _ _ _); simpl; tauto.
Qed.

(** Under an override the decision returns before it reads or writes
    anything else. *)
Lemma calculateTarget_override cpuReading gpuReading now fc o :
  override fc = Some o ->
  calculateTarget cpuReading gpuReading now fc = (fc, Speed o).
Proof. intros Ho. unfold calculateTarget. rewrite Ho. reflexivity. Qed.

Lemma clamp_lower fcc target : MinSpeed fcc <= clamp fcc target.
Proof. unfold clamp. rewrite max_Zmax. lia. Qed.

Lemma clamp_upper fcc target :
  MinSpeed fcc <= MaxSpeed fcc -> clamp fcc target <= MaxSpeed fcc.
Proof. unfold clamp. rewrite max_Zmax, min_Zmin. lia. Qed.


Lemma applyHintMin_Zmax hintMin target :
  applyHintMin hintMin target = Z.max hintMin target.
Proof.
  unfold applyHintMin. rewrite Z.gtb_ltb.
  destruct (Z.ltb_spec target hintMin); lia.
Qed.

(** C1, as stated, fails twice.  Under an override of 3% on the default
    configuration ([MinSpeed = 5]) the decision returns 3 and the stored
    target stays at its initial 0, both below [MinSpeed]; and on a
    configuration whose [MinSpeed] exceeds its [MaxSpeed] the decision
    without override returns [MinSpeed], above [MaxSpeed]. *)
Lemma C1_override_and_crossed_limits_escape :
  (let fc := SetOverride 3 0 "silence" 1 1 (NewFanController Default) in
   let r := calculateTarget cool noGPU 2 fc in
   r.2 = 3 /\ targetSpeed r.1 = 0
   /\ ~ (MinSpeed (FanControl (cfg fc)) <= r.2)
   /\ ~ (MinSpeed (FanControl (cfg fc)) <= targetSpeed r.1))
  /\ (let fc := NewFanController crossedLimits in
      let r := calculateTarget cool noGPU 2 fc in
      override fc = None
      /\ r.2 = 50 /\ MaxSpeed (FanControl (cfg fc)) = 30
      /\ ~ (r.2 <= MaxSpeed (FanControl (cfg fc)))).
Proof.
  vm_compute.
  repeat split; try reflexivity; intros H; apply H; reflexivity.
Qed.

(** C1, amended: a call of [calculateTarget] made while no override is
    present returns a target [t] with [MinSpeed <= t], with [t <= MaxSpeed]
    when the configuration has [MinSpeed <= MaxSpeed], and stores [t] as
    [targetSpeed].  While an override is present the call returns the
    [Speed] of the override, unclamped, and leaves [targetSpeed] as it was.
    The configuration is the same after the call. *)
Theorem C1_target_within_limits cpuReading gpuReading now fc :
  let fcc := FanControl (cfg fc) in
  let r := calculateTarget cpuReading gpuReading now fc in
  (override fc = None ->
   MinSpeed fcc <= r.2
   /\ (MinSpeed fcc <= MaxSpeed fcc -> r.2 <= MaxSpeed fcc)
   /\ targetSpeed r.1 = r.2)
  /\ (forall o, override fc = Some o ->
        r.2 = Speed o /\ targetSpeed r.1 = targetSpeed fc)
  /\ cfg r.1 = cfg fc.
Proof.
  intros fcc r.
  destruct (calculateTarget_frame cpuReading gpuReading now fc) as (Hc & _).
  refine (conj _ (conj _ Hc)).
  - intros Ho.
    destruct (calculateTarget_auto cpuReading gpuReading now fc Ho)
      as (Ht & Hs & _).
    subst r. fold fcc in Ht, Hs. rewrite Hs, Ht.
    refine (conj (clamp_lower _ _) (conj _ eq_refl)).
    intros Hlim. apply clamp_upper. exact Hlim.
  - intros o Ho. subst r.
    rewrite (calculateTarget_override _ _ _ _ _ Ho). split; reflexivity.
Qed.

Lemma C1_target_within_limits_witness :
  (5 <= (calculateTarget hot90 noGPU 7 idling).2
   /\ (calculateTarget hot90 noGPU 7 idling).2 <= 100
   /\ targetSpeed (calculateTarget hot90 noGPU 7 idling).1
      = (calculateTarget hot90 noGPU 7 idling).2)
  /\ (let fc := SetOverride 3 0 "silence" 1 1 idling in
      (calculateTarget hot90 noGPU 7 fc).2 = 3
      /\ targetSpeed (calculateTarget hot90 noGPU 7 fc).1 = targetSpeed fc).
Proof.
  split.
  - destruct (C1_target_within_limits hot90 noGPU 7 idling) as (Hauto & _).
    destruct (Hauto eq_refl) as (Hlo & Hhi & Hst).
    refine (conj Hlo (conj (Hhi _) Hst)). vm_compute. discriminate.
  - intros fc.
    destruct (C1_target_within_limits hot90 noGPU 7 fc) as (_ & Hover & _).
    exact (Hover (mkOverride 3 "silence" 0 1) eq_refl).
Defined.

(** C5: while an override is present [calculateTarget] returns its [Speed]
    as it is, with no hint floor and no clamp, and leaves the controller as
    it was, so [currentZone], [targetSpeed] and [lastOverThreshold] keep
    their values. *)
Theorem C5_override_verbatim cpuReading gpuReading now fc o :
  override fc = Some o ->
  calculateTarget cpuReading gpuReading now fc = (fc, Speed o)
  /\ currentZone (calculateTarget cpuReading gpuReading now fc).1
     = currentZone fc
  /\ targetSpeed (calculateTarget cpuReading gpuReading now fc).1
     = targetSpeed fc
  /\ lastOverThreshold (calculateTarget cpuReading gpuReading now fc).1
     = lastOverThreshold fc.
Proof.
  intros Ho. rewrite (calculateTarget_override _ _ _ _ _ Ho). simpl. tauto.
Qed.

Lemma C5_override_verbatim_witness :
  let fc := SetOverride 3 0 "night" 1 1
              (AddHint (mkWorkloadHint "gpu_load" "start" "high" "whisper" 0 0 0)
                       1 idling) in
  calculateTarget hot90 noGPU 2 fc = (fc, 3)
  /\ currentZone (calculateTarget hot90 noGPU 2 fc).1 = currentZone fc
  /\ targetSpeed (calculateTarget hot90 noGPU 2 fc).1 = targetSpeed fc
  /\ lastOverThreshold (calculateTarget hot90 noGPU 2 fc).1
     = lastOverThreshold fc.
Proof.
  intros fc.
  exact (C5_override_verbatim hot90 noGPU 2 fc
           (mkOverride 3 "night" 0 1) eq_refl).
Defined.





(** The ramp of the default configuration under a CPU held at 90 degrees:
    one step per cycle, from the idle 20 toward the needed 80. *)
Example ramp_three_cycles :
  (runCycles [hotCycle (10 * Second); hotCycle (20 * Second);
              hotCycle (30 * Second)] idling).2 = [30; 40; 50].
Proof. reflexivity. Qed.






(** ** Overrides and their expiry *)

Lemma cleanExpired_override now fc :
  override (cleanExpired now fc) =
    match override fc with
    | Some o => if expired (ExpiresAt o) now then None else Some o
    | None => None
    end.
Proof.
  unfold cleanExpired. simpl. destruct (override fc) as [o|] eqn:Ho.
  - destruct (expired (ExpiresAt o) now); simpl; [reflexivity|exact Ho].
  - simpl. exact Ho.
Qed.

(** The override a cycle reaches its decision with is the one it started
    with, unless its eviction removed it. *)
Lemma controlLoop_decides_on inp fc :
  exists cpuReading gpuReading fc1,
    override fc1 = override (cleanExpired (tClean inp) fc)
    /\ cycle_target (controlLoop inp fc)
       = (calculateTarget cpuReading gpuReading (tDecide inp) fc1).2
    /\ override (after_cycle (controlLoop inp fc)) = override fc1.
Proof.
  unfold controlLoop.
  destruct (cpuRead inp) as [c|e1]; destruct (gpuRead inp) as [g|e2];
    match goal with
    | |- context [calculateTarget ?c ?g ?t ?f] =>
      exists c, g, f;
      destruct (calculateTarget_frame c g t f) as (_ & _ & _ & Hov & _);
      destruct (calculateTarget c g t f) as [f' tg] eqn:E
    end; simpl in *;
    (split; [rewrite !cleanExpired_override; reflexivity|split; [reflexivity|exact Hov]]).
Qed.

(** A cycle that starts under an override its eviction keeps returns the
    speed of the override and ends under the same override. *)
Lemma controlLoop_under_override inp fc o :
  override fc = Some o ->
  expired (ExpiresAt o) (tClean inp) = false ->
  cycle_target (controlLoop inp fc) = Speed o
  /\ override (after_cycle (controlLoop inp fc)) = Some o.
Proof.
  intros Ho He.
  destruct (controlLoop_decides_on inp fc) as (c & g & fc1 & H1 & H2 & H3).
  rewrite cleanExpired_override, Ho, He in H1.
  rewrite H2, H3.
  rewrite (calculateTarget_override c g (tDecide inp) fc1 o H1).
  simpl. split; [reflexivity|exact H1].
Qed.

(** Cycles under an override without expiry all return its speed. *)
Lemma runCycles_under_override inps : forall fc o,
  override fc = Some o ->
  ExpiresAt o = 0 ->
  (runCycles inps fc).2 = repeat (Speed o) (length inps)
  /\ override (runCycles inps fc).1 = Some o.
Proof.
  induction inps as [|inp rest IH]; intros fc o Ho Hz; simpl.
  - split; [reflexivity|exact Ho].
  - assert (He : expired (ExpiresAt o) (tClean inp) = false)
      by (rewrite Hz; reflexivity).
    destruct (controlLoop_under_override inp fc o Ho He) as (Ht & Hafter).
    specialize (IH _ _ Hafter Hz).
    destruct (runCycles rest (after_cycle (controlLoop inp fc))) as [fc' ts].
    simpl in *. destruct IH as (-> & ->). rewrite Ht. split; reflexivity.
Qed.

(** Past its expiry an override leaves the cycle as if it had been cleared. *)
Lemma controlLoop_expired_override inp fc o :
  override fc = Some o ->
  expired (ExpiresAt o) (tClean inp) = true ->
  controlLoop inp fc = controlLoop inp (ClearOverride fc).
Proof.
  intros Ho He. unfold controlLoop.
  destruct (cpuRead inp) as [c|e1]; destruct (gpuRead inp) as [g|e2];
    match goal with
    | |- context [calculateTarget ?c ?g ?t (cleanExpired ?tc ?f)] =>
      match goal with
      | |- context [calculateTarget c g t (cleanExpired tc ?f')] =>
        lazymatch f' with
        | f => fail
        | _ => replace (cleanExpired tc f) with (cleanExpired tc f'); [reflexivity|]
        end
      end
    end;
    unfold cleanExpired, trimHistory, ClearOverride; simpl; rewrite Ho, He;
    reflexivity.
Qed.

(** C4: [SetOverride] with [duration <= 0] stores an override whose
    [ExpiresAt] is the zero instant; no eviction removes it, and every cycle
    of a run of any length returns its speed.  With [duration > 0] it stores
    [ExpiresAt = now + duration]; an eviction at an instant up to
    [ExpiresAt] keeps it, one past [ExpiresAt] removes it, and from then on
    the cycle is the one of a controller without override: the decision is
    the threshold control.  The clock reads after the zero instant. *)
Theorem C4_override_expiry speed duration reason created now fc :
  let fc1 := SetOverride speed duration reason created now fc in
  (duration <= 0 ->
     override fc1 = Some (mkOverride speed reason 0 created)
     /\ (forall t, override (cleanExpired t fc1) = override fc1)
     /\ (forall inps,
           (runCycles inps fc1).2 = repeat speed (length inps)
           /\ override (runCycles inps fc1).1 = override fc1))
  /\ (0 < duration -> 0 < now ->
     override fc1 = Some (mkOverride speed reason (now + duration) created)
     /\ (forall t, t <= now + duration ->
           override (cleanExpired t fc1) = override fc1)
     /\ (forall t, now + duration < t ->
           override (cleanExpired t fc1) = None)
     /\ (forall inp, now + duration < tClean inp ->
           controlLoop inp fc1 = controlLoop inp (ClearOverride fc))
     /\ (forall t cpuReading gpuReading t', now + duration < t ->
           let fc2 := cleanExpired t fc1 in
           let fcc := FanControl (cfg fc2) in
           let cpuMax := CPU_Max cpuReading in
           let gpuMax := GPU_Max gpuReading in
           (calculateTarget cpuReading gpuReading t' fc2).2 =
             clamp fcc
               (applyHintMin (hintMinSpeed (hints fc2))
                  (if overThreshold fcc cpuMax gpuMax
                   then rampUp fcc (currentSpeed fc2) cpuMax gpuMax
                   else rampDown fcc (currentSpeed fc2)
                                 (lastOverThreshold fc2) t')))).
Proof.
  intros fc1. split.
  - intros Hd.
    assert (Ho : override fc1 = Some (mkOverride speed reason 0 created)).
    { unfold fc1, SetOverride. simpl.
      destruct (Z.gtb_spec duration 0); [lia|reflexivity]. }
    split; [exact Ho|]. split.
    + intros t. rewrite cleanExpired_override, Ho. reflexivity.
    + intros inps. rewrite Ho.
      exact (runCycles_under_override inps fc1 _ Ho eq_refl).
  - intros Hd Hnow.
    assert (Ho : override fc1
                 = Some (mkOverride speed reason (now + duration) created)).
    { unfold fc1, SetOverride. simpl.
      destruct (Z.gtb_spec duration 0); [reflexivity|lia]. }
    assert (Hexp : forall t, now + duration < t ->
                     expired (now + duration) t = true).
    { intros t Ht. unfold expired, IsZero, Before.
      destruct (Z.eqb_spec (now + duration) 0); [lia|].
      destruct (Z.ltb_spec (now + duration) t); [reflexivity|lia]. }
    assert (Hgone : forall t, now + duration < t ->
                      override (cleanExpired t fc1) = None).
    { intros t Ht. rewrite cleanExpired_override, Ho. simpl.
      rewrite (Hexp t Ht). reflexivity. }
    split; [exact Ho|]. split; [|split; [exact Hgone|split]].
    + intros t Ht. rewrite cleanExpired_override, Ho. simpl.
      unfold expired, Before.
      destruct (Z.ltb_spec (now + duration) t); [lia|].
      rewrite andb_false_r. reflexivity.
    + intros inp Ht.
      rewrite (controlLoop_expired_override inp fc1 _ Ho (Hexp _ Ht)).
      reflexivity.
    + intros t c g t' Ht fc2 fcc cpuMax gpuMax.
      exact (proj1 (calculateTarget_auto c g t' fc2 (Hgone t Ht))).
Qed.

Lemma C4_override_expiry_witness :
  (runCycles [hotCycle (10 * Second); hotCycle (20 * Second);
              hotCycle (30 * Second)]
             (SetOverride 35 0 "manual" Second Second idling)).2
  = [35; 35; 35]
  /\ override (cleanExpired (7 * Second)
                 (SetOverride 35 (5 * Second) "manual" Second Second idling))
     = None
  /\ controlLoop (hotCycle (7 * Second))
       (SetOverride 35 (5 * Second) "manual" Second Second idling)
     = controlLoop (hotCycle (7 * Second)) (ClearOverride idling).
Proof.
  destruct (C4_override_expiry 35 0 "manual" Second Second idling)
    as ((_ & _ & Hrun) & _); [lia|].
  destruct (C4_override_expiry 35 (5 * Second) "manual" Second Second idling)
    as (_ & (_ & _ & Hgone & Hcycle & _)); [reflexivity|reflexivity|].
  refine (conj (proj1 (Hrun [_; _; _])) (conj (Hgone _ _) (Hcycle _ _)));
    reflexivity.
Defined.

(** ** The hint registry *)

Lemma controlLoop_hints inp fc :
  hints (after_cycle (controlLoop inp fc)) =
    filter (fun kv => expired (Hint_ExpiresAt kv.2) (tClean inp) = false)
           (hints fc).
Proof.
  unfold controlLoop.
  destruct (cpuRead inp) as [c|e1]; destruct (gpuRead inp) as [g|e2];
    match goal with
    | |- context [calculateTarget ?c ?g ?t ?f] =>
      destruct (calculateTarget_frame c g t f) as (_ & _ & Hh & _);
      destruct (calculateTarget c g t f) as [f' tg] eqn:E
    end; simpl in *; rewrite Hh; unfold cleanExpired; simpl;
    destruct (override fc) as [o|]; simpl;
    try destruct (expired (ExpiresAt o) (tClean inp)); reflexivity.
Qed.

(** An operation leaves the hint of a source as it is or removes it, unless
    it registers a hint for that source. *)
Lemma perform_keeps_hint op fc source h' :
  keeps source op ->
  hints (perform op fc) !! source = Some h' ->
  hints fc !! source = Some h'.
Proof.
  destruct op as [hint now|src|sp d rs cr now| |inp]; simpl; intros Hk Hl.
  - rewrite lookup_insert_ne in Hl by exact Hk. exact Hl.
  - destruct (decide (src = source)) as [->|Hne].
    + rewrite lookup_delete_eq in Hl. discriminate.
    + rewrite lookup_delete_ne in Hl by exact Hne. exact Hl.
  - exact Hl.
  - exact Hl.
  - rewrite controlLoop_hints in Hl.
    apply map_lookup_filter_Some in Hl. apply Hl.
Qed.

Lemma performAll_keeps_hint ops : forall fc source h',
  Forall (keeps source) ops ->
  hints (performAll ops fc) !! source = Some h' ->
  hints fc !! source = Some h'.
Proof.
  induction ops as [|op rest IH]; intros fc source h' Hk Hl; simpl in *.
  - exact Hl.
  - inversion Hk as [|? ? Hop Hrest]; subst.
    apply (perform_keeps_hint op fc source h' Hop).
    apply (IH _ _ _ Hrest Hl).
Qed.

(** The floor [AddHint] derives from an intensity. *)
Lemma AddHint_stored hint now fc :
  hints (AddHint hint now fc) !! Source hint =
    Some (mkWorkloadHint (Type_ hint) (Action hint) (Intensity hint)
            (Source hint)
            (if String.eqb (Intensity hint) "high" then 45
             else if String.eqb (Intensity hint) "medium" then 25
             else if String.eqb (Intensity hint) "low" then 15
             else 25)
            (Hint_ExpiresAt hint) now).
Proof. unfold AddHint. simpl. apply lookup_insert_eq. Qed.

(** Whatever is registered for a source after a hint went through
    [AddHint] carries the floor of its own intensity. *)
Lemma performAll_floor_of_intensity ops : forall fc source,
  (forall h, hints fc !! source = Some h ->
     MinFanSpeed h = (if String.eqb (Intensity h) "high" then 45
                      else if String.eqb (Intensity h) "medium" then 25
                      else if String.eqb (Intensity h) "low" then 15
                      else 25)) ->
  forall h, hints (performAll ops fc) !! source = Some h ->
    MinFanSpeed h = (if String.eqb (Intensity h) "high" then 45
                     else if String.eqb (Intensity h) "medium" then 25
                     else if String.eqb (Intensity h) "low" then 15
                     else 25).
Proof.
  induction ops as [|op rest IH]; intros fc source Hinv h Hl; simpl in *.
  - exact (Hinv h Hl).
  - apply (IH (perform op fc) source); [|exact Hl].
    clear h Hl. intros h Hl.
    destruct op as [hint now|src|sp d rs cr now| |inp].
    + destruct (decide (Source hint = source)) as [<-|Hne].
      * cbn [perform] in Hl. rewrite AddHint_stored in Hl.
        injection Hl as <-. reflexivity.
      * apply Hinv. exact (perform_keeps_hint (OpAddHint hint now) fc _ _ Hne Hl).
    + apply Hinv. exact (perform_keeps_hint (OpRemoveHint src) fc _ _ I Hl).
    + apply Hinv. exact Hl.
    + apply Hinv. exact Hl.
    + apply Hinv. exact (perform_keeps_hint (OpCycle inp) fc _ _ I Hl).
Qed.

(** C7, as stated, fails when the source already has a hint: registering a
    second hint for "whisper" and removing it leaves an empty registry, not
    the prior one, and the decision falls from the floor 45 to the idle
    speed 20. *)
Lemma C7_replaced_hint_is_not_restored :
  hints (RemoveHint "whisper"
           (AddHint (mkWorkloadHint "gpu_load" "start" "low" "whisper" 0 0 0)
                    (2 * Second) transcribing))
    <> hints transcribing
  /\ (calculateTarget cool noGPU (3 * Second)
        (RemoveHint "whisper"
           (AddHint (mkWorkloadHint "gpu_load" "start" "low" "whisper" 0 0 0)
                    (2 * Second) transcribing))).2 = 20
  /\ (calculateTarget cool noGPU (3 * Second) transcribing).2 = 45.
Proof.
  split; [|split; reflexivity].
  intros H. apply (f_equal (fun m => m !! "whisper")) in H.
  vm_compute in H. discriminate.
Qed.

(** C7, amended: [AddHint] for a source followed by [RemoveHint] for the
    same source leaves the registry as it was before, less the entry of that
    source.  When the source had no hint before, the controller is the one
    before the two calls, so a decision after them returns what it returns
    with no hint ever added.  [RemoveHint] is total, idempotent and
    without effect on a source that has no hint. *)
Theorem C7_add_then_remove hint now fc :
  let fc' := RemoveHint (Source hint) (AddHint hint now fc) in
  hints fc' = delete (Source hint) (hints fc)
  /\ (hints fc !! Source hint = None ->
      fc' = fc
      /\ forall cpuReading gpuReading t,
           calculateTarget cpuReading gpuReading t fc'
           = calculateTarget cpuReading gpuReading t fc)
  /\ (forall source fc0,
        RemoveHint source (RemoveHint source fc0) = RemoveHint source fc0)
  /\ (forall source fc0,
        hints fc0 !! source = None -> RemoveHint source fc0 = fc0).
Proof.
  intros fc'.
  assert (Hdel : hints fc' = delete (Source hint) (hints fc)).
  { unfold fc', RemoveHint, AddHint. simpl. apply delete_insert_eq. }
  assert (Habsent : forall source fc0,
            hints fc0 !! source = None -> RemoveHint source fc0 = fc0).
  { intros source fc0 Hn. unfold RemoveHint, set_hints.
    rewrite delete_id by exact Hn. destruct fc0; reflexivity. }
  split; [exact Hdel|]. split; [|split; [|exact Habsent]].
  - intros Hn.
    assert (Heq : fc' = fc).
    { unfold fc', RemoveHint, AddHint, set_hints. simpl.
      rewrite delete_insert_eq, delete_id by exact Hn.
      destruct fc; reflexivity. }
    split; [exact Heq|]. intros c g t. rewrite Heq. reflexivity.
  - intros source fc0. apply Habsent. unfold RemoveHint. simpl.
    apply lookup_delete_eq.
Qed.

Lemma C7_add_then_remove_witness :
  RemoveHint "ffmpeg"
    (AddHint (mkWorkloadHint "cpu_load" "start" "medium" "ffmpeg" 0 0 0)
             (2 * Second) transcribing)
  = transcribing.
Proof.
  apply (C7_add_then_remove
           (mkWorkloadHint "cpu_load" "start" "medium" "ffmpeg" 0 0 0)
           (2 * Second) transcribing).
  reflexivity.
Defined.

(** C8: the hint [AddHint] stores for a source carries a [MinFanSpeed]
    fixed by its intensity alone, 45 for "high", 25 for "medium", 15 for
    "low" and 25 for any other intensity, whatever [MinFanSpeed] the hint
    came with.  No later call changes it: a decision leaves the registry
    alone, and after any sequence of operations that registers no new hint
    for the source, the entry of the source is the stored hint or is gone;
    a hint registered later for the source again carries the floor of its
    own intensity. *)
Theorem C8_min_fan_speed_from_intensity hint now fc :
  let fc1 := AddHint hint now fc in
  exists stored,
    hints fc1 !! Source hint = Some stored
    /\ Intensity stored = Intensity hint
    /\ (Intensity hint = "high" -> MinFanSpeed stored = 45)
    /\ (Intensity hint = "medium" -> MinFanSpeed stored = 25)
    /\ (Intensity hint = "low" -> MinFanSpeed stored = 15)
    /\ (Intensity hint <> "high" -> Intensity hint <> "medium" ->
        Intensity hint <> "low" -> MinFanSpeed stored = 25)
    /\ (forall supplied,
          AddHint (mkWorkloadHint (Type_ hint) (Action hint) (Intensity hint)
                     (Source hint) supplied (Hint_ExpiresAt hint)
                     (Hint_CreatedAt hint)) now fc = fc1)
    /\ (forall cpuReading gpuReading t,
          hints (calculateTarget cpuReading gpuReading t fc1).1 = hints fc1)
    /\ (forall ops h,
          Forall (keeps (Source hint)) ops ->
          hints (performAll ops fc1) !! Source hint = Some h -> h = stored)
    /\ (forall ops h,
          hints (performAll ops fc1) !! Source hint = Some h ->
          MinFanSpeed h = (if String.eqb (Intensity h) "high" then 45
                           else if String.eqb (Intensity h) "medium" then 25
                           else if String.eqb (Intensity h) "low" then 15
                           else 25)).
Proof.
  intros fc1. pose proof (AddHint_stored hint now fc) as Hst. fold fc1 in Hst.
  eexists. split; [exact Hst|]. simpl.
  split; [reflexivity|].
  split; [intros ->; reflexivity|].
  split; [intros ->; reflexivity|].
  split; [intros ->; reflexivity|].
  split.
  { intros H1 H2 H3.
    apply String.eqb_neq in H1, H2, H3. rewrite H1, H2, H3. reflexivity. }
  split; [intros supplied; reflexivity|].
  split.
  { intros c g t.
    destruct (calculateTarget_frame c g t fc1) as (_ & _ & Hh & _). exact Hh. }
  split.
  - intros ops h Hk Hl.
    pose proof (performAll_keeps_hint ops fc1 _ _ Hk Hl) as Hl0.
    rewrite Hst in Hl0. injection Hl0 as <-. reflexivity.
  - intros ops h Hl.
    apply (performAll_floor_of_intensity ops fc1 (Source hint)); [|exact Hl].
    intros h0 Hl0. rewrite Hst in Hl0. injection Hl0 as <-. reflexivity.
Qed.

Lemma C8_min_fan_speed_from_intensity_witness :
  exists stored,
    hints (AddHint (mkWorkloadHint "gpu_load" "start" "turbo" "blender" 90 0 0)
                   Second transcribing) !! "blender" = Some stored
    /\ MinFanSpeed stored = 25.
Proof.
  destruct (C8_min_fan_speed_from_intensity
              (mkWorkloadHint "gpu_load" "start" "turbo" "blender" 90 0 0)
              Second transcribing)
    as (stored & Hl & _ & _ & _ & _ & Hother & _).
  exists stored. split; [exact Hl|].
  apply Hother; discriminate.
Defined.

(** The floor of the hints does not depend on the order in which the map is
    ranged over: it is 0 or the largest registered [MinFanSpeed]. *)
Lemma hintMinSpeed_spec (hs : gmap string WorkloadHint) :
  0 <= hintMinSpeed hs
  /\ (forall source h, hs !! source = Some h -> MinFanSpeed h <= hintMinSpeed hs)
  /\ (hintMinSpeed hs = 0
      \/ exists source h, hs !! source = Some h
                          /\ hintMinSpeed hs = MinFanSpeed h).
Proof.
  unfold hintMinSpeed.
  apply (map_fold_weak_ind
           (fun r (m : gmap string WorkloadHint) =>
              0 <= r
              /\ (forall source h, m !! source = Some h -> MinFanSpeed h <= r)
              /\ (r = 0 \/ exists source h, m !! source = Some h
                                            /\ r = MinFanSpeed h))).
  - split; [lia|]. split; [|left; reflexivity].
    intros source h Hl. rewrite lookup_empty in Hl. discriminate.
  - intros i x m r Hi (Hr & Hall & Hex).
    rewrite Z.gtb_ltb. destruct (Z.ltb_spec r (MinFanSpeed x)) as [Hlt|Hge].
    + split; [lia|]. split.
      * intros source h Hl. destruct (decide (i = source)) as [->|Hne].
        -- rewrite lookup_insert_eq in Hl. injection Hl as <-. lia.
        -- rewrite lookup_insert_ne in Hl by exact Hne.
           specialize (Hall _ _ Hl). lia.
      * right. exists i, x. split; [apply lookup_insert_eq|reflexivity].
    + split; [lia|]. split.
      * intros source h Hl. destruct (decide (i = source)) as [->|Hne].
        -- rewrite lookup_insert_eq in Hl. injection Hl as <-. lia.
        -- rewrite lookup_insert_ne in Hl by exact Hne. exact (Hall _ _ Hl).
      * destruct Hex as [Hz|(source & h & Hl & Hm)]; [left; exact Hz|].
        right. exists source, h. split; [|exact Hm].
        rewrite lookup_insert_ne; [exact Hl|].
        intros ->. rewrite Hi in Hl. discriminate.
Qed.

(** ** The control cycle *)

(** C9: a cycle whose CPU read fails goes on with the reading
    [{Temps: [], Max: 0}], one whose GPU read fails with
    [{Devices: [], Max: 0}].  The cycle is total: it ends in a controller, a
    target and its events whatever the reads return.  It is the cycle of the
    substituted readings with the error log lines put in front; the
    substituted readings are the last readings of the controller, their
    maxima are appended to the histories before the trim, they are the
    arguments of the decision, and their maxima go to the history store
    with the target. *)
Theorem C9_read_failure_fallback inp fc :
  let cpuReading :=
    match cpuRead inp with inl r => r | inr _ => mkCPUReading [] 0 end in
  let gpuReading :=
    match gpuRead inp with inl r => r | inr _ => mkGPUReading [] 0 end in
  let sub :=
    mkCycleInput (inl cpuReading) (inl gpuReading) (tAppend inp) (tTrim inp)
                 (tClean inp) (tDecide inp) (ipmiRun inp) in
  let errors :=
    match cpuRead inp with inl _ => [] | inr e => [LogCPUReadError e] end
    ++ match gpuRead inp with inl _ => [] | inr e => [LogGPUReadError e] end in
  let cutoff := trimCutoff (tTrim inp) (cfg fc) in
  let decided :=
    calculateTarget cpuReading gpuReading (tDecide inp)
      (cleanExpired (tClean inp)
         (trimHistory (tTrim inp)
            (set_history
               (cpuHistory fc ++ [mkTempPoint (CPU_Max cpuReading) (tAppend inp)])
               (gpuHistory fc ++ [mkTempPoint (GPU_Max gpuReading) (tAppend inp)])
               (set_lastReadings cpuReading gpuReading fc)))) in
  let out := controlLoop inp fc in
  after_cycle out = after_cycle (controlLoop sub fc)
  /\ cycle_target out = cycle_target (controlLoop sub fc)
  /\ cycle_events out = errors ++ cycle_events (controlLoop sub fc)
  /\ lastCPUReading (after_cycle out) = Some cpuReading
  /\ lastGPUReading (after_cycle out) = Some gpuReading
  /\ cpuHistory (after_cycle out) =
       after cutoff
         (cpuHistory fc ++ [mkTempPoint (CPU_Max cpuReading) (tAppend inp)])
  /\ gpuHistory (after_cycle out) =
       after cutoff
         (gpuHistory fc ++ [mkTempPoint (GPU_Max gpuReading) (tAppend inp)])
  /\ cycle_target out = decided.2
  /\ In (RecordReading (CPU_Max cpuReading) (GPU_Max gpuReading)
                       (cycle_target out)) (cycle_events out)
  /\ (forall err, cpuRead inp = inr err ->
        cpuReading = mkCPUReading [] 0
        /\ In (LogCPUReadError err) (cycle_events out))
  /\ (forall err, gpuRead inp = inr err ->
        gpuReading = mkGPUReading [] 0
        /\ In (LogGPUReadError err) (cycle_events out)).
Proof.
  intros cpuReading gpuReading sub errors cutoff decided out.
  assert (Hout : out =
    mkCycleOutput (set_currentSpeed decided.2 decided.1) decided.2
      (errors ++ [IpmiSetSpeed decided.2]
       ++ match ipmiRun inp with Some e => [LogSetSpeedFailed e] | None => [] end
       ++ [RecordReading (CPU_Max cpuReading) (GPU_Max gpuReading) decided.2;
           LogCycle (CPU_Max cpuReading) (GPU_Max gpuReading)
                    (currentZone decided.1) decided.2])).
  { unfold out, controlLoop, decided, errors, cpuReading, gpuReading, setFanSpeed.
    destruct (cpuRead inp) as [c|e1]; destruct (gpuRead inp) as [g|e2];
      cbv beta iota zeta;
      match goal with
      | |- context [calculateTarget ?c ?g ?t ?f] =>
        set (d := calculateTarget c g t f)
      end;
      repeat match goal with
      | |- context [calculateTarget ?c ?g ?t ?f] =>
        change (calculateTarget c g t f) with d
      end;
      destruct d as [f' tg]; reflexivity. }
  assert (Hsub : controlLoop sub fc =
    mkCycleOutput (set_currentSpeed decided.2 decided.1) decided.2
      ([IpmiSetSpeed decided.2]
       ++ match ipmiRun inp with Some e => [LogSetSpeedFailed e] | None => [] end
       ++ [RecordReading (CPU_Max cpuReading) (GPU_Max gpuReading) decided.2;
           LogCycle (CPU_Max cpuReading) (GPU_Max gpuReading)
                    (currentZone decided.1) decided.2])).
  { unfold controlLoop, sub, decided, setFanSpeed.
    cbn [cpuRead gpuRead tAppend tTrim tClean tDecide ipmiRun].
    cbv beta iota zeta.
    match goal with
    | |- context [calculateTarget ?c ?g ?t ?f] =>
      set (d := calculateTarget c g t f)
    end;
    repeat match goal with
    | |- context [calculateTarget ?c ?g ?t ?f] =>
      change (calculateTarget c g t f) with d
    end;
    destruct d as [f' tg]; reflexivity. }
  destruct (calculateTarget_frame cpuReading gpuReading (tDecide inp)
              (cleanExpired (tClean inp)
                 (trimHistory (tTrim inp)
                    (set_history
                       (cpuHistory fc
                        ++ [mkTempPoint (CPU_Max cpuReading) (tAppend inp)])
                       (gpuHistory fc
                        ++ [mkTempPoint (GPU_Max gpuReading) (tAppend inp)])
                       (set_lastReadings cpuReading gpuReading fc)))))
    as (_ & _ & _ & _ & Hch & Hgh).
  fold decided in Hch, Hgh.
  assert (Hclean : forall t f,
            cpuHistory (cleanExpired t f) = cpuHistory f
            /\ gpuHistory (cleanExpired t f) = gpuHistory f
            /\ lastCPUReading (cleanExpired t f) = lastCPUReading f
            /\ lastGPUReading (cleanExpired t f) = lastGPUReading f).
  { intros t f. unfold cleanExpired. simpl.
    destruct (override f) as [o|]; simpl;
      try destruct (expired (ExpiresAt o) t); simpl; tauto. }
  assert (Hlast : lastCPUReading decided.1 = Some cpuReading
                  /\ lastGPUReading decided.1 = Some gpuReading).
  { unfold decided, calculateTarget.
    match goal with
    | |- context [override (cleanExpired ?t ?f)] =>
      destruct (Hclean t f) as (_ & _ & Hc & Hg);
      destruct (override (cleanExpired t f)); simpl;
      [|destruct (overThreshold _ _ _); simpl]; rewrite Hc, Hg; split; reflexivity
    end. }
  rewrite Hsub, Hout. simpl.
  refine (conj eq_refl (conj eq_refl (conj eq_refl (conj (proj1 Hlast)
            (conj (proj2 Hlast) (conj _ (conj _ (conj eq_refl (conj _ (conj _ _)))))))))).
  - rewrite Hch.
    match goal with
    | |- context [cleanExpired ?t ?f] =>
      rewrite (proj1 (Hclean t f))
    end. reflexivity.
  - rewrite Hgh.
    match goal with
    | |- context [cleanExpired ?t ?f] =>
      rewrite (proj1 (proj2 (Hclean t f)))
    end. reflexivity.
  - apply in_or_app. right. right. apply in_or_app. right. left. reflexivity.
  - intros err He. unfold cpuReading, errors. rewrite He.
    split; [reflexivity|]. left. reflexivity.
  - intros err He. unfold gpuReading, errors. rewrite He.
    split; [reflexivity|]. apply in_or_app. left. apply in_or_app. right.
    left. reflexivity.
Qed.

Lemma C9_read_failure_fallback_witness :
  lastCPUReading (after_cycle (controlLoop (blindCycle (1010 * Second)) cooling))
  = Some (mkCPUReading [] 0)
  /\ cpuHistory (after_cycle (controlLoop (blindCycle (1010 * Second)) cooling))
     = [mkTempPoint 0 (1010 * Second)]
  /\ In (RecordReading 0 0 50)
        (cycle_events (controlLoop (blindCycle (1010 * Second)) cooling))
  /\ In (LogCPUReadError "exit status 1")
        (cycle_events (controlLoop (blindCycle (1010 * Second)) cooling))
  /\ In (LogGPUReadError "nvidia-smi: not found")
        (cycle_events (controlLoop (blindCycle (1010 * Second)) cooling)).
Proof.
  destruct (C9_read_failure_fallback (blindCycle (1010 * Second)) cooling)
    as (_ & _ & _ & Hcpu & _ & Hhist & _ & _ & Hrec & Hce & Hge).
  refine (conj Hcpu (conj Hhist (conj Hrec (conj _ _)))).
  - exact (proj2 (Hce "exit status 1" eq_refl)).
  - exact (proj2 (Hge "nvidia-smi: not found" eq_refl)).
Defined.

(** ** The status snapshot *)

(** [GetStatus] reports the two thresholds as the decision uses them, and
    the idle speed as it is configured. *)
Lemma GetStatus_thresholds now tc tg fc :
  let st := GetStatus now tc tg fc in
  st_CPUThreshold st = cpuThreshold (FanControl (cfg fc))
  /\ st_GPUThreshold st = gpuThreshold (FanControl (cfg fc))
  /\ st_IdleSpeed st = IdleSpeed (FanControl (cfg fc)).
Proof. unfold GetStatus, cpuThreshold, gpuThreshold. simpl. tauto. Qed.

(** C10 at a configuration that leaves the thresholds and the idle speed
    at 0: [GetStatus] reports the thresholds 65 and 60 the decision uses,
    but the idle speed 0, while the decision idles at 20. *)
Theorem C10_status_reports_configured_idle_speed :
  st_CPUThreshold (GetStatus Second Second Second (NewFanController idleUnset))
  = 65
  /\ st_GPUThreshold (GetStatus Second Second Second (NewFanController idleUnset))
     = 60
  /\ st_IdleSpeed (GetStatus Second Second Second (NewFanController idleUnset))
     = 0
  /\ baseSpeed (FanControl idleUnset) = 20
  /\ (calculateTarget cool noGPU Second (NewFanController idleUnset)).2 = 20.
Proof. repeat split; reflexivity. Qed.

(** ** The trend estimator *)

(** *** Binary64 rounding, as far as the estimator needs it *)

Lemma digits2_log2 p : Zpos (digits2_pos p) = Z.log2 (Zpos p) + 1.
Proof.
  assert (H : forall q, digits2_pos q = Pos.size q).
  { induction q; simpl; congruence. }
  destruct p; simpl; rewrite ?H; lia.
Qed.

Lemma Zdigits2_bounds m :
  0 < m -> 2 ^ (Zdigits2 m - 1) <= m < 2 ^ Zdigits2 m.
Proof.
  intros Hm. destruct m as [|p|p]; try lia.
  unfold Zdigits2. rewrite digits2_log2.
  pose proof (Z.log2_spec (Zpos p) ltac:(lia)) as H.
  replace (Z.log2 (Z.pos p) + 1 - 1) with (Z.log2 (Z.pos p)) by lia.
  replace (Z.log2 (Z.pos p) + 1) with (Z.succ (Z.log2 (Z.pos p))) by lia.
  exact H.
Qed.

Lemma Zdigits2_eq m n :
  0 < n -> 2 ^ (n - 1) <= m < 2 ^ n -> Zdigits2 m = n.
Proof.
  intros Hn Hm.
  assert (0 < m) by (pose proof (Z.pow_pos_nonneg 2 (n - 1)); lia).
  destruct m as [|p|p]; try lia.
  unfold Zdigits2. rewrite digits2_log2.
  rewrite (Z.log2_unique (Zpos p) (n - 1)); try lia.
  replace (Z.succ (n - 1)) with n by lia. exact Hm.
Qed.

Lemma iter_xO p k : Zpos (Pos.iter xO p k) = Zpos p * 2 ^ Zpos k.
Proof.
  induction k as [|k IH] using Pos.peano_ind.
  - simpl. lia.
  - rewrite Pos.iter_succ, Pos2Z.inj_succ, Z.pow_succ_r by lia.
    rewrite Pos2Z.inj_xO, IH. lia.
Qed.

Lemma shr_1_m m r s : 0 <= m -> shr_m (shr_1 (Build_shr_record m r s)) = m / 2.
Proof.
  intros Hm. destruct m as [|p|p]; try lia; [reflexivity|].
  destruct p; simpl; try reflexivity.
  - rewrite Pos2Z.inj_xI. apply Z.div_unique with 1; lia.
  - rewrite Pos2Z.inj_xO. apply Z.div_unique with 0; lia.
Qed.

Lemma round_nearest_even_bounds m l :
  m <= round_nearest_even m l <= m + 1.
Proof.
  unfold round_nearest_even. destruct l as [|[| |]]; try lia.
  destruct (Z.even m); lia.
Qed.

Lemma rne_of_loc m l :
  round_nearest_even (shr_m (shr_record_of_loc m l))
    (loc_of_shr_record (shr_record_of_loc m l)) = round_nearest_even m l.
Proof. destruct l as [|[| |]]; reflexivity. Qed.

Lemma fexp_normal x : -1074 <= x - 53 -> fexp prec emax x = x - 53.
Proof. unfold fexp, SpecFloat.emin, prec, emax. lia. Qed.

Lemma shr_fexp_53 m e l :
  2 ^ 52 <= m < 2 ^ 53 -> -1000 <= e <= 1000 ->
  shr_fexp prec emax m e l = (shr_record_of_loc m l, e).
Proof.
  intros Hm He. unfold shr_fexp.
  rewrite (Zdigits2_eq m 53) by (simpl; lia).
  rewrite fexp_normal by lia.
  replace (53 + e - 53 - e) with 0 by lia. reflexivity.
Qed.

Lemma shr_fexp_54 m e l :
  2 ^ 53 <= m < 2 ^ 54 -> -1000 <= e <= 1000 ->
  shr_fexp prec emax m e l = (shr_1 (shr_record_of_loc m l), e + 1).
Proof.
  intros Hm He. unfold shr_fexp.
  rewrite (Zdigits2_eq m 54) by (simpl; lia).
  rewrite fexp_normal by lia.
  replace (54 + e - 53 - e) with 1 by lia. reflexivity.
Qed.

(** The last steps of [binary_round_aux] on a mantissa of 53 bits, or of
    54 bits after a carry. *)
Lemma round_carry m e :
  2 ^ 52 <= m <= 2 ^ 53 -> -1000 <= e <= 900 ->
  exists m' e',
    (let '(mrs, e'') := shr_fexp prec emax m e loc_Exact in
     match shr_m mrs with
     | Z0 => S754_zero false
     | Zpos p => if e'' <=? emax - prec then S754_finite false p e''
                 else S754_infinity false
     | Zneg _ => S754_nan
     end) = S754_finite false m' e'
    /\ 2 ^ 52 <= Zpos m' < 2 ^ 53
    /\ ((e' = e /\ Zpos m' = m) \/ (e' = e + 1 /\ m = 2 ^ 53 /\ Zpos m' = 2 ^ 52)).
Proof.
  intros Hm He. destruct (Z.eq_dec m (2 ^ 53)) as [->|Hne].
  - rewrite shr_fexp_54 by lia. simpl.
    destruct (Z.leb_spec (e + 1) (emax - prec)) as [_|H];
      [|unfold emax, prec in H; lia].
    eexists _, _. split; [reflexivity|]. split; [lia|]. right. lia.
  - rewrite shr_fexp_53 by lia. simpl.
    destruct m as [|p|p]; try lia.
    destruct (Z.leb_spec e (emax - prec)) as [_|H];
      [|unfold emax, prec in H; lia].
    eexists _, _. split; [reflexivity|]. split; [lia|]. left. lia.
Qed.

Lemma binary_round_aux_normal q E l :
  2 ^ 52 <= q < 2 ^ 54 -> -1000 <= E <= 800 ->
  exists m e,
    binary_round_aux prec emax false q E l = S754_finite false m e
    /\ 2 ^ 52 <= Zpos m < 2 ^ 53
    /\ ((e = E /\ q < 2 ^ 53 /\ Zpos m = round_nearest_even q l)
        \/ (e = E + 1 /\ q - 1 <= 2 * Zpos m <= q + 2)
        \/ (e = E + 2 /\ q + 1 <= 4 * Zpos m <= q + 2)).
Proof.
  intros Hq HE. unfold binary_round_aux.
  destruct (Z.lt_ge_cases q (2 ^ 53)) as [Hlt|Hge].
  - rewrite shr_fexp_53 by lia. rewrite rne_of_loc.
    pose proof (round_nearest_even_bounds q l) as Hb.
    destruct (round_carry (round_nearest_even q l) E) as (m' & e' & Heq & Hm' & Hc);
      [lia|lia|].
    rewrite Heq. exists m', e'. split; [reflexivity|]. split; [exact Hm'|].
    destruct Hc as [(-> & Hv)|(-> & Hv & Hp)]; [left|right; left]; lia.
  - rewrite shr_fexp_54 by lia.
    set (mrs := shr_1 (shr_record_of_loc q l)).
    assert (Hx : shr_m mrs = q / 2).
    { unfold mrs. destruct l as [|[| |]]; simpl shr_record_of_loc;
        apply shr_1_m; lia. }
    assert (Hdiv : 2 * (q / 2) <= q < 2 * (q / 2) + 2).
    { pose proof (Z.div_mod q 2 ltac:(lia)).
      pose proof (Z.mod_pos_bound q 2 ltac:(lia)). lia. }
    pose proof (round_nearest_even_bounds (shr_m mrs) (loc_of_shr_record mrs)) as Hb.
    set (m1 := round_nearest_even (shr_m mrs) (loc_of_shr_record mrs)) in *.
    rewrite Hx in Hb.
    destruct (round_carry m1 (E + 1)) as (m' & e' & Heq & Hm' & Hc); [lia|lia|].
    rewrite Heq. exists m', e'. split; [reflexivity|]. split; [exact Hm'|].
    destruct Hc as [(-> & Hv)|(-> & Hv & Hp)]; [right; left|right; right]; lia.
Qed.

Lemma float64_of_int_pos d :
  0 < d < 2 ^ 53 ->
  exists m,
    float64_of_int d = S754_finite false m (Zdigits2 d - 53)
    /\ Zpos m = d * 2 ^ (53 - Zdigits2 d)
    /\ 2 ^ 52 <= Zpos m < 2 ^ 53.
Proof.
  intros Hd. pose proof (Zdigits2_bounds d ltac:(lia)) as Hn.
  destruct d as [|p|p]; try lia.
  set (n := Zdigits2 (Zpos p)) in *.
  assert (Hn53 : 1 <= n <= 53).
  { split; [unfold n; simpl; lia|].
    destruct (Z.le_gt_cases n 53) as [H|H]; [exact H|].
    assert (2 ^ 53 <= 2 ^ (n - 1)) by (apply Z.pow_le_mono_r; lia). lia. }
  assert (Hscale : 2 ^ 52 <= Zpos p * 2 ^ (53 - n) < 2 ^ 53).
  { assert (Hp : 0 < 2 ^ (53 - n)) by (apply Z.pow_pos_nonneg; lia).
    assert (H1 : 2 ^ (n - 1) * 2 ^ (53 - n) = 2 ^ 52)
      by (rewrite <- Z.pow_add_r by lia; f_equal; lia).
    assert (H2 : 2 ^ n * 2 ^ (53 - n) = 2 ^ 53)
      by (rewrite <- Z.pow_add_r by lia; f_equal; lia).
    nia. }
  unfold float64_of_int, binary_normalize, binary_round.
  change (Zpos (digits2_pos p)) with n.
  rewrite fexp_normal by lia.
  assert (Halign : exists mz,
            shl_align p 0 (n + 0 - 53) = (mz, n - 53)
            /\ Zpos mz = Zpos p * 2 ^ (53 - n)).
  { unfold shl_align. destruct (n + 0 - 53 - 0) as [|k|k] eqn:Hk; try lia.
    - exists p. split; [f_equal; lia|].
      replace (53 - n) with 0 by lia. lia.
    - exists (Pos.iter xO p k). split; [f_equal; lia|].
      rewrite iter_xO. f_equal. f_equal. lia. }
  destruct Halign as (mz & -> & Hmz).
  unfold binary_round_aux.
  rewrite shr_fexp_53 by lia. rewrite rne_of_loc. simpl round_nearest_even.
  destruct (round_carry (Zpos mz) (n - 53)) as (m' & e' & Heq & Hm' & Hc);
    [lia|lia|].
  rewrite Heq. destruct Hc as [(-> & Hv)|(_ & Hv & _)]; [|lia].
  exists m'. split; [reflexivity|]. split; lia.
Qed.

Lemma SF64div_by_minute mx ex :
  2 ^ 52 <= Zpos mx < 2 ^ 53 -> -60 <= ex <= 0 ->
  let q := (Zpos mx * 2 ^ 53) / 7864320000000000 in
  let E := ex - 36 in
  exists m e,
    SF64div (S754_finite false mx ex) (float64_of_int 60000000000)
    = S754_finite false m e
    /\ 2 ^ 52 <= Zpos m < 2 ^ 53
    /\ ((e = E /\ q <= Zpos m <= q + 1)
        \/ (e = E + 1 /\ q - 1 <= 2 * Zpos m <= q + 2)
        \/ (e = E + 2 /\ q + 1 <= 4 * Zpos m <= q + 2)).
Proof.
  intros Hmx Hex q E.
  change (float64_of_int 60000000000)
    with (S754_finite false 7864320000000000 (-17)).
  unfold SF64div, SFdiv, SFdiv_core_binary.
  rewrite (Zdigits2_eq (Zpos mx) 53) by (simpl; lia).
  change (Zdigits2 (Zpos 7864320000000000)) with 53.
  rewrite fexp_normal by lia.
  replace (Z.min (53 + ex - (53 + -17) - 53) (ex - -17)) with E
    by (unfold E; lia).
  replace (ex - -17 - E) with 53 by (unfold E; lia).
  rewrite Z.shiftl_mul_pow2 by lia.
  unfold Z.div in q. fold q.
  destruct (Z.div_eucl (Zpos mx * 2 ^ 53) 7864320000000000) as [q0 r] eqn:Hdiv.
  simpl in q. subst q.
  assert (Hq : 2 ^ 52 <= q0 < 2 ^ 54).
  { pose proof (Z_div_mod (Zpos mx * 2 ^ 53) 7864320000000000 ltac:(lia)) as H.
    rewrite Hdiv in H. lia. }
  destruct (binary_round_aux_normal q0 E (new_location 7864320000000000 r) Hq)
    as (m & e & Heq & Hm & Hc); [unfold E; lia|].
  exists m, e. split; [exact Heq|]. split; [exact Hm|].
  pose proof (round_nearest_even_bounds q0 (new_location 7864320000000000 r)).
  destruct Hc as [(-> & _ & Hv)|[Hc|Hc]]; [left|right; left|right; right]; lia.
Qed.

Lemma SFltb_finite m e m' e' :
  SFltb (S754_finite false m e) (S754_finite false m' e')
  = (e <? e') || ((e =? e') && (Zpos m <? Zpos m')).
Proof.
  unfold SFltb, SFcompare.
  destruct (Z.ltb_spec e e') as [Hlt|Hge].
  - apply Z.compare_lt_iff in Hlt. rewrite Hlt. reflexivity.
  - destruct (Z.eqb_spec e e') as [Heq|Hne].
    + apply Z.compare_eq_iff in Heq. rewrite Heq.
      cbv beta iota delta [orb andb].
      change (Pos.compare_cont Eq m m') with (Pos.compare m m').
      destruct (Z.ltb_spec (Zpos m) (Zpos m')) as [H|H];
        destruct (Pos.compare_spec m m') as [Hc|Hc|Hc];
        try reflexivity; exfalso; lia.
    + assert (Hgt : e > e') by lia. unfold Z.gt in Hgt. rewrite Hgt.
      reflexivity.
Qed.

Lemma SFltb_tenth m e :
  SFltb (S754_finite false m e) tenth
  = (e <? -56) || ((e =? -56) && (Zpos m <? 7205759403792794)).
Proof. unfold tenth. apply SFltb_finite. Qed.

Lemma Minutes_within_a_minute d :
  0 <= d < Minute ->
  Minutes d = SF64add (S754_zero false)
                (SF64div (float64_of_int d) (float64_of_int 60000000000)).
Proof.
  intros Hd. unfold Minutes.
  rewrite Z.quot_small, Z.rem_small by exact Hd. reflexivity.
Qed.

(** Below one minute, [Minutes] is under [0.1] exactly when the duration is
    under six seconds. *)
Lemma Minutes_lt_tenth d :
  0 <= d < Minute ->
  SFltb (Minutes d) tenth = (d <? 6 * Second).
Proof.
  intros Hd. rewrite (Minutes_within_a_minute d Hd).
  unfold Minute, Second in *.
  change (6 * 1000000000) with 6000000000.
  change (60 * 1000000000) with 60000000000 in Hd.
  destruct (Z.eq_dec d 0) as [->|Hd0]; [reflexivity|].
  destruct (Z.eq_dec d 6000000000) as [->|Hd6]; [vm_compute; reflexivity|].
  destruct (float64_of_int_pos d ltac:(lia)) as (mx & -> & Hmx & Hmxr).
  pose proof (Zdigits2_bounds d ltac:(lia)) as Hn.
  set (n := Zdigits2 d) in *.
  assert (Hn36 : 1 <= n <= 36).
  { split.
    - destruct (Z.le_gt_cases 1 n) as [H|H]; [exact H|].
      assert (n <= 0) by lia. rewrite (Z.pow_neg_r 2 (n - 1)) in Hn by lia.
      destruct (Z.eq_dec n 0) as [->|]; [simpl in Hn; lia|].
      rewrite (Z.pow_neg_r 2 n) in Hn by lia. lia.
    - destruct (Z.le_gt_cases n 36) as [H|H]; [exact H|].
      assert (2 ^ 36 <= 2 ^ (n - 1)) by (apply Z.pow_le_mono_r; lia). lia. }
  destruct (SF64div_by_minute mx (n - 53) Hmxr ltac:(lia))
    as (m & e & -> & Hm & Hc).
  change (SF64add (S754_zero false) (S754_finite false m e))
    with (S754_finite false m e).
  rewrite SFltb_tenth.
  pose proof (Z.div_mod (Zpos mx * 2 ^ 53) 7864320000000000 ltac:(lia)) as Hdm.
  pose proof (Z.mod_pos_bound (Zpos mx * 2 ^ 53) 7864320000000000 ltac:(lia)) as Hmod.
  set (q := Zpos mx * 2 ^ 53 / 7864320000000000) in *.
  set (r := (Zpos mx * 2 ^ 53) mod 7864320000000000) in *.
  destruct (Z.le_gt_cases n 30) as [Hn30|Hn30].
  { (* at most 30 bits: the quotient is below 2^-4 *)
    assert (2 ^ n <= 2 ^ 30) by (apply Z.pow_le_mono_r; lia).
    destruct (Z.ltb_spec d 6000000000); [|lia].
    destruct (Z.ltb_spec e (-56)); [reflexivity|lia]. }
  destruct (Z.le_gt_cases 34 n) as [Hn34|Hn34].
  { assert (2 ^ 33 <= 2 ^ (n - 1)) by (apply Z.pow_le_mono_r; lia).
    destruct (Z.ltb_spec d 6000000000); [lia|].
    destruct (Z.ltb_spec e (-56)); [lia|].
    destruct (Z.eqb_spec e (-56)); [lia|reflexivity]. }
  assert (Hcase : n = 31 \/ n = 32 \/ n = 33) by lia.
  destruct Hcase as [Hv|[Hv|Hv]]; rewrite Hv in *;
    change (2 ^ (53 - 31)) with 4194304 in *;
    change (2 ^ (53 - 32)) with 2097152 in *;
    change (2 ^ (53 - 33)) with 1048576 in *;
    change (2 ^ (31 - 1)) with 1073741824 in *;
    change (2 ^ (32 - 1)) with 2147483648 in *;
    change (2 ^ (33 - 1)) with 4294967296 in *;
    destruct (Z.ltb_spec d 6000000000);
    destruct (Z.ltb_spec e (-56));
    destruct (Z.eqb_spec e (-56));
    destruct (Z.ltb_spec (Zpos m) 7205759403792794);
    try reflexivity; exfalso; lia.
Qed.

(** *** The trend over the window *)

Lemma after_In cutoff history p :
  In p (after cutoff history) <-> In p history /\ cutoff < timestamp p.
Proof.
  unfold after. rewrite filter_In. unfold After. rewrite Z.gtb_ltb, Z.ltb_lt.
  reflexivity.
Qed.

Lemma after_sorted cutoff history :
  StronglySorted (fun p q => timestamp p <= timestamp q) history ->
  StronglySorted (fun p q => timestamp p <= timestamp q) (after cutoff history).
Proof.
  induction 1 as [|a l Hs IH Hall]; simpl; [constructor|].
  destruct (After (timestamp a) cutoff); [|exact IH].
  constructor; [exact IH|].
  apply List.Forall_forall. intros x Hx. apply after_In in Hx.
  rewrite List.Forall_forall in Hall. apply Hall, Hx.
Qed.

Lemma sorted_head_last (l : list tempPoint) first last :
  StronglySorted (fun p q => timestamp p <= timestamp q) l ->
  head l = Some first -> list.last l = Some last ->
  timestamp first <= timestamp last.
Proof.
  intros Hs Hh Hl. destruct l as [|a l]; [discriminate|].
  injection Hh as ->. apply StronglySorted_inv in Hs as (_ & Hall).
  apply last_Some_elem_of, list_elem_of_In in Hl.
  destruct Hl as [<-|Hin]; [lia|].
  rewrite List.Forall_forall in Hall. apply Hall, Hin.
Qed.

(** Fewer than two samples in the window: no trend. *)
Lemma calculateTrend_few history now :
  (length (after (now - 60 * Second) history) < 2)%nat ->
  calculateTrend history now = fzero.
Proof.
  intros Hlen. unfold calculateTrend.
  destruct (Z.of_nat (length history) <? 2); [reflexivity|].
  change (Add now (go.mul (-60) Second)) with (now - 60 * Second).
  destruct (Z.ltb_spec (Z.of_nat (length (after (now - 60 * Second) history))) 2);
    [reflexivity|lia].
Qed.

(** Two samples or more in the window: the slope between the first and
    the last, unless they are less than a tenth of a minute apart. *)
Lemma calculateTrend_recent history now first last :
  (2 <= length (after (now - 60 * Second) history))%nat ->
  head (after (now - 60 * Second) history) = Some first ->
  list.last (after (now - 60 * Second) history) = Some last ->
  calculateTrend history now =
    if SFltb (Minutes (Sub (timestamp last) (timestamp first))) tenth
    then fzero
    else SF64div (float64_of_int (go.sub (temp last) (temp first)))
                 (Minutes (Sub (timestamp last) (timestamp first))).
Proof.
  intros Hlen Hh Hl. unfold calculateTrend.
  change (Add now (go.mul (-60) Second)) with (now - 60 * Second).
  assert (Hle : (length (after (now - 60 * Second) history)
                 <= length history)%nat)
    by (unfold after; apply List.filter_length_le).
  destruct (Z.ltb_spec (Z.of_nat (length history)) 2); [lia|].
  destruct (Z.ltb_spec (Z.of_nat (length (after (now - 60 * Second) history))) 2);
    [lia|].
  rewrite Hh, Hl. reflexivity.
Qed.

Lemma Sub_small t u : 0 <= t - u < Minute -> Sub t u = t - u.
Proof.
  unfold Sub, minDuration, maxDuration, minInt, maxInt, Minute, Second.
  intros H.
  destruct (Z.ltb_spec (t - u) (- 2 ^ 63)); [lia|].
  destruct (Z.gtb_spec (t - u) (2 ^ 63 - 1)); [lia|reflexivity].
Qed.

(** C6: on a time-ordered history whose samples are not later than the
    current time, the trend is 0 when fewer than two samples fall within the
    last 60 seconds, and 0 when the first and the last of these are less
    than 6 seconds (0.1 minutes) apart; otherwise it is the [float64]
    quotient of [last.temp - first.temp] by the minutes between them.  On
    [{(40, t0), (46, t0 + 30 s)}], both within the window, it is 12.0, and on
    a history of one sample it is 0. *)
Theorem C6_trend now :
  (forall history,
     StronglySorted (fun p q => timestamp p <= timestamp q) history ->
     Forall (fun p => timestamp p <= now) history ->
     let recent := after (now - 60 * Second) history in
     ((length recent < 2)%nat -> calculateTrend history now = fzero)
     /\ (forall first last,
           (2 <= length recent)%nat ->
           head recent = Some first -> list.last recent = Some last ->
           let span := timestamp last - timestamp first in
           0 <= span < Minute
           /\ (span < 6 * Second -> calculateTrend history now = fzero)
           /\ (6 * Second <= span ->
               calculateTrend history now =
                 SF64div (float64_of_int (go.sub (temp last) (temp first)))
                         (Minutes span))))
  /\ (forall t0,
        now - 60 * Second < t0 ->
        calculateTrend [mkTempPoint 40 t0; mkTempPoint 46 (t0 + 30 * Second)] now
        = float64_of_int 12)
  /\ SF2Prim (float64_of_int 12) = 12%float
  /\ (forall p, calculateTrend [p] now = fzero).
Proof.
  split; [|split; [|split]].
  - intros history Hsorted Hpast recent. split.
    + apply calculateTrend_few.
    + intros first last Hlen Hh Hl span.
      assert (Hspan : 0 <= span < Minute).
      { pose proof (sorted_head_last _ _ _ (after_sorted _ _ Hsorted) Hh Hl).
        apply head_Some_elem_of, list_elem_of_In, after_In in Hh.
        apply last_Some_elem_of, list_elem_of_In, after_In in Hl.
        rewrite List.Forall_forall in Hpast.
        pose proof (Hpast _ (proj1 Hl)).
        unfold span, Minute, Second in *. lia. }
      split; [exact Hspan|].
      pose proof (calculateTrend_recent history now first last Hlen Hh Hl) as Ht.
      rewrite (Sub_small _ _ Hspan) in Ht. fold span in Ht.
      rewrite (Minutes_lt_tenth span Hspan) in Ht.
      split; intros Hs; rewrite Ht.
      * destruct (Z.ltb_spec span (6 * Second)); [reflexivity|lia].
      * destruct (Z.ltb_spec span (6 * Second)); [lia|reflexivity].
  - intros t0 Ht0.
    assert (Hrecent : after (now - 60 * Second)
                        [mkTempPoint 40 t0; mkTempPoint 46 (t0 + 30 * Second)]
                      = [mkTempPoint 40 t0; mkTempPoint 46 (t0 + 30 * Second)]).
    { unfold after, List.filter, After, timestamp, Second in *.
      destruct (Z.gtb_spec t0 (now - 60 * 1000000000)); [|lia].
      destruct (Z.gtb_spec (t0 + 30 * 1000000000) (now - 60 * 1000000000));
        [reflexivity|lia]. }
    pose proof (calculateTrend_recent
                  [mkTempPoint 40 t0; mkTempPoint 46 (t0 + 30 * Second)] now
                  (mkTempPoint 40 t0) (mkTempPoint 46 (t0 + 30 * Second)))
      as Ht.
    rewrite Hrecent in Ht.
    rewrite (Ht ltac:(simpl; lia) eq_refl eq_refl).
    cbn [timestamp temp].
    rewrite Sub_small by (unfold Minute, Second; lia).
    replace (t0 + 30 * Second - t0) with 30000000000 by (unfold Second; lia).
    vm_compute. reflexivity.
  - vm_compute. reflexivity.
  - intros p. reflexivity.
Qed.

Lemma C6_trend_witness :
  calculateTrend rising (1031 * Second) = float64_of_int 12
  /\ calculateTrend rising (1085 * Second) = fzero.
Proof.
  assert (Hsorted : StronglySorted (fun p q => timestamp p <= timestamp q) rising).
  { unfold rising, Second.
    repeat (constructor; [|repeat constructor; simpl; lia]). constructor. }
  assert (Hpast : forall now, 1031 * Second <= now ->
                    Forall (fun p => timestamp p <= now) rising).
  { intros now Hnow. unfold rising, Second in *.
    repeat constructor; simpl; lia. }
  destruct (proj1 (C6_trend (1031 * Second)) rising Hsorted
              (Hpast (1031 * Second) ltac:(lia))) as (_ & Hrec).
  destruct (Hrec (mkTempPoint 40 (1000 * Second)) (mkTempPoint 46 (1030 * Second)))
    as (_ & _ & Hslope); [simpl; lia|reflexivity|reflexivity|].
  destruct (proj1 (C6_trend (1085 * Second)) rising Hsorted
              (Hpast (1085 * Second) ltac:(unfold Second; lia))) as (Hfew & _).
  split.
  - rewrite Hslope by (vm_compute; discriminate). vm_compute. reflexivity.
  - apply Hfew. vm_compute. lia.
Defined.

(** * Properties of the functions around the controller *)

(** ** The maxima of the readings *)

Lemma fold_max_spec {A} (key : A -> Z) (l : list A) : forall a,
  let r := fold_left (fun max x => if key x >? max then key x else max) l a in
  a <= r
  /\ (forall x, In x l -> key x <= r)
  /\ (r = a \/ exists x, In x l /\ key x = r).
Proof.
  induction l as [|y l IH]; intros a; simpl.
  - split; [lia|]. split; [tauto|]. left. reflexivity.
  - specialize (IH (if key y >? a then key y else a)).
    simpl in IH. destruct IH as (Hle & Hall & Hex).
    rewrite Z.gtb_ltb in *.
    destruct (Z.ltb_spec a (key y)).
    + split; [lia|]. split.
      * intros x [<-|Hx]; [lia|]. apply Hall, Hx.
      * right. destruct Hex as [Heq|(x & Hx & Hk)]; [exists y|exists x]; auto.
    + split; [lia|]. split.
      * intros x [<-|Hx]; [lia|]. apply Hall, Hx.
      * destruct Hex as [Heq|(x & Hx & Hk)]; [left; exact Heq|].
        right. exists x. auto.
Qed.

(** X1: [maxInt] of no values is 0; of one value or more it is one of the
    values and no value is larger. *)
Theorem maxInt_is_the_maximum (vals : list Z) :
  (vals = [] -> readings.maxInt vals = 0)
  /\ (vals <> [] ->
      In (readings.maxInt vals) vals
      /\ forall v, In v vals -> v <= readings.maxInt vals).
Proof.
  split; [intros ->; reflexivity|].
  intros Hne. destruct vals as [|v0 rest]; [congruence|].
  unfold readings.maxInt.
  destruct (fold_max_spec (fun v : Z => v) rest v0) as (Hle & Hall & Hex).
  simpl in *. split.
  - destruct Hex as [->|(x & Hx & <-)]; [left; reflexivity|right; exact Hx].
  - intros v [<-|Hv]; [exact Hle|apply Hall, Hv].
Qed.

Lemma maxInt_is_the_maximum_witness :
  In (readings.maxInt [33; 35; 31]) [33; 35; 31]
  /\ forall v, In v [33; 35; 31] -> v <= readings.maxInt [33; 35; 31].
Proof.
  apply (maxInt_is_the_maximum [33; 35; 31]). discriminate.
Defined.

(** X2: the [Max] of the reading built from the GPU devices is never
    negative and no device is hotter; it is 0 or the temperature of a
    device, namely the larger of 0 and the largest device temperature, and 0
    without devices. *)
Theorem maxGPUTemp_is_the_maximum_above_zero (devices : list GPUDevice) :
  let r := GPU_Max (readings.gpuReadingOf devices) in
  0 <= r
  /\ (forall d, In d devices -> Temp d <= r)
  /\ (r = 0 \/ exists d, In d devices /\ Temp d = r)
  /\ r = Z.max 0 (readings.maxInt (map Temp devices))
  /\ (devices = [] -> r = 0).
Proof.
  simpl. unfold readings.maxGPUTemp.
  pose proof (fold_max_spec Temp devices 0) as H. cbv zeta in H.
  set (r := fold_left _ devices 0) in *.
  destruct H as (Hle & Hall & Hex).
  refine (conj Hle (conj Hall (conj Hex (conj _ _)))).
  - destruct (maxInt_is_the_maximum (map Temp devices)) as (Hnil & Hm).
    set (M := readings.maxInt (map Temp devices)) in *.
    destruct devices as [|d0 ds].
    + rewrite Hnil by reflexivity. subst r. reflexivity.
    + destruct Hm as (Hin & Hub); [discriminate|].
      apply in_map_iff in Hin as (dm & Hdm & Hin).
      pose proof (Hall dm Hin) as Hle2. rewrite Hdm in Hle2.
      destruct Hex as [Heq|(x & Hx & Hk)]; [lia|].
      pose proof (Hub (Temp x) (in_map Temp _ x Hx)). lia.
  - intros ->. reflexivity.
Qed.

Lemma maxGPUTemp_is_the_maximum_above_zero_witness :
  GPU_Max (readings.gpuReadingOf
             [mkGPUDevice 0 "Tesla P40" 41 0 0 24576 50;
              mkGPUDevice 1 "Tesla P40" 38 0 0 24576 50])
  = Z.max 0 (readings.maxInt [41; 38])
  /\ GPU_Max (readings.gpuReadingOf []) = 0.
Proof.
  split.
  - exact (proj1 (proj2 (proj2 (proj2
             (maxGPUTemp_is_the_maximum_above_zero
                [mkGPUDevice 0 "Tesla P40" 41 0 0 24576 50;
                 mkGPUDevice 1 "Tesla P40" 38 0 0 24576 50]))))).
  - apply (maxGPUTemp_is_the_maximum_above_zero []). reflexivity.
Defined.

(** ** The zone of a pair of temperatures *)

Lemma firstCovering_Some zones cpuTemp gpuTemp zone :
  firstCovering zones cpuTemp gpuTemp = Some zone ->
  cpuTemp <= CPUMax zone /\ gpuTemp <= GPUMax zone
  /\ exists earlier later,
       zones = earlier ++ zone :: later
       /\ Forall (fun z => ~ (cpuTemp <= CPUMax z /\ gpuTemp <= GPUMax z))
                 earlier.
Proof.
  induction zones as [|a rest IH]; simpl; [discriminate|].
  destruct (Z.leb_spec cpuTemp (CPUMax a)) as [Hc|Hc];
    destruct (Z.leb_spec gpuTemp (GPUMax a)) as [Hg|Hg]; simpl;
    try (intros H; destruct (IH H) as (H1 & H2 & earlier & later & -> & Hf);
         split; [exact H1|]; split; [exact H2|];
         exists (a :: earlier), later; split; [reflexivity|];
         constructor; [lia|exact Hf]).
  intros [= <-]. split; [exact Hc|]. split; [exact Hg|].
  exists [], rest. split; [reflexivity|constructor].
Qed.

Lemma firstCovering_None zones cpuTemp gpuTemp :
  firstCovering zones cpuTemp gpuTemp = None ->
  Forall (fun z => ~ (cpuTemp <= CPUMax z /\ gpuTemp <= GPUMax z)) zones.
Proof.
  induction zones as [|a rest IH]; simpl; [constructor|].
  destruct (Z.leb_spec cpuTemp (CPUMax a)) as [Hc|Hc];
    destruct (Z.leb_spec gpuTemp (GPUMax a)) as [Hg|Hg]; simpl;
    try discriminate; intros H; constructor; try lia; exact (IH H).
Qed.

(** X3: on a configuration without zones [GetZone] fails (index out of
    range).  Otherwise it returns a zone of the configuration: the first one
    whose two bounds cover the temperatures, or, when none does, the last
    one. *)
Theorem GetZone_first_covering_or_last c cpuTemp gpuTemp :
  (Zones c = [] -> GetZone c cpuTemp gpuTemp = None)
  /\ (Zones c <> [] ->
      exists zone,
        GetZone c cpuTemp gpuTemp = Some zone
        /\ In zone (Zones c)
        /\ ((cpuTemp <= CPUMax zone /\ gpuTemp <= GPUMax zone
             /\ exists earlier later,
                  Zones c = earlier ++ zone :: later
                  /\ Forall (fun z => ~ (cpuTemp <= CPUMax z
                                         /\ gpuTemp <= GPUMax z)) earlier)
            \/ (Forall (fun z => ~ (cpuTemp <= CPUMax z /\ gpuTemp <= GPUMax z))
                       (Zones c)
                /\ last (Zones c) = Some zone))).
Proof.
  unfold GetZone. split.
  - intros ->. reflexivity.
  - intros Hne.
    destruct (firstCovering (Zones c) cpuTemp gpuTemp) as [zone|] eqn:Hf.
    + exists zone. split; [reflexivity|].
      destruct (firstCovering_Some _ _ _ _ Hf) as (H1 & H2 & e & l & Heq & Hall).
      split; [rewrite Heq; apply in_or_app; right; left; reflexivity|].
      left. eauto 10.
    + destruct (last (Zones c)) as [zone|] eqn:Hl.
      * exists zone. split; [reflexivity|].
        split; [apply list_elem_of_In, last_Some_elem_of, Hl|].
        right. split; [apply firstCovering_None, Hf|reflexivity].
      * apply last_None in Hl. congruence.
Qed.

Lemma GetZone_first_covering_or_last_witness :
  exists zone,
    GetZone Default 62 38 = Some zone /\ In zone (Zones Default).
Proof.
  destruct (GetZone_first_covering_or_last Default 62 38) as (_ & H).
  destruct H as (zone & Hz & Hin & _); [discriminate|].
  exists zone. split; [exact Hz|exact Hin].
Defined.

Lemma sorted_le_last (zones : list Zone) zone final :
  StronglySorted (fun a b => FanSpeed a <= FanSpeed b) zones ->
  In zone zones -> last zones = Some final ->
  FanSpeed zone <= FanSpeed final.
Proof.
  induction 1 as [|a l Hs IH Hall]; intros Hin Hl; [destruct Hin|].
  destruct l as [|b l].
  - destruct Hin as [<-|[]]. injection Hl as <-. lia.
  - change (last (a :: b :: l)) with (last (b :: l)) in Hl.
    destruct Hin as [<-|Hin]; [|exact (IH Hin Hl)].
    rewrite List.Forall_forall in Hall.
    apply Hall, list_elem_of_In, last_Some_elem_of, Hl.
Qed.

Lemma firstCovering_monotone zones cpuTemp gpuTemp cpuTemp' gpuTemp' zone' :
  StronglySorted (fun a b => FanSpeed a <= FanSpeed b) zones ->
  cpuTemp <= cpuTemp' -> gpuTemp <= gpuTemp' ->
  firstCovering zones cpuTemp' gpuTemp' = Some zone' ->
  exists zone,
    firstCovering zones cpuTemp gpuTemp = Some zone
    /\ FanSpeed zone <= FanSpeed zone'.
Proof.
  intros Hs Hc Hg. induction Hs as [|a l Hs IH Hall]; simpl; [discriminate|].
  destruct (Z.leb_spec cpuTemp' (CPUMax a)) as [Hc'|Hc'];
    destruct (Z.leb_spec gpuTemp' (GPUMax a)) as [Hg'|Hg']; simpl.
  - intros [= <-].
    destruct (Z.leb_spec cpuTemp (CPUMax a)); [|lia].
    destruct (Z.leb_spec gpuTemp (GPUMax a)); [|lia].
    simpl. exists a. split; [reflexivity|lia].
  - intros Hf.
    destruct ((cpuTemp <=? CPUMax a) && (gpuTemp <=? GPUMax a)).
    + exists a. split; [reflexivity|].
      destruct (firstCovering_Some _ _ _ _ Hf) as (_ & _ & e & t & -> & _).
      rewrite List.Forall_forall in Hall. apply Hall.
      apply in_or_app. right. left. reflexivity.
    + exact (IH Hf).
  - intros Hf.
    destruct ((cpuTemp <=? CPUMax a) && (gpuTemp <=? GPUMax a)).
    + exists a. split; [reflexivity|].
      destruct (firstCovering_Some _ _ _ _ Hf) as (_ & _ & e & t & -> & _).
      rewrite List.Forall_forall in Hall. apply Hall.
      apply in_or_app. right. left. reflexivity.
    + exact (IH Hf).
  - intros Hf.
    destruct ((cpuTemp <=? CPUMax a) && (gpuTemp <=? GPUMax a)).
    + exists a. split; [reflexivity|].
      destruct (firstCovering_Some _ _ _ _ Hf) as (_ & _ & e & t & -> & _).
      rewrite List.Forall_forall in Hall. apply Hall.
      apply in_or_app. right. left. reflexivity.
    + exact (IH Hf).
Qed.

(** X4: when the fan speeds of the zones do not decrease along the list,
    the fan speed of the zone [GetZone] returns does not decrease when both
    temperatures rise. *)
Theorem GetZone_monotone c cpuTemp gpuTemp cpuTemp' gpuTemp' zone zone' :
  StronglySorted (fun a b => FanSpeed a <= FanSpeed b) (Zones c) ->
  cpuTemp <= cpuTemp' -> gpuTemp <= gpuTemp' ->
  GetZone c cpuTemp gpuTemp = Some zone ->
  GetZone c cpuTemp' gpuTemp' = Some zone' ->
  FanSpeed zone <= FanSpeed zone'.
Proof.
  intros Hs Hc Hg. unfold GetZone.
  destruct (firstCovering (Zones c) cpuTemp' gpuTemp') as [z'|] eqn:Hf'.
  - destruct (firstCovering_monotone _ _ _ _ _ _ Hs Hc Hg Hf')
      as (z & -> & Hle).
    intros [= <-] [= <-]. exact Hle.
  - intros Hz Hl.
    apply (sorted_le_last (Zones c) zone zone' Hs); [|exact Hl].
    destruct (firstCovering (Zones c) cpuTemp gpuTemp) as [z|] eqn:Hf.
    + injection Hz as <-.
      destruct (firstCovering_Some _ _ _ _ Hf) as (_ & _ & e & t & -> & _).
      apply in_or_app. right. left. reflexivity.
    + apply list_elem_of_In, last_Some_elem_of, Hz.
Qed.

Lemma GetZone_monotone_witness :
  FanSpeed (mkZone "normal" 60 70 25) <= FanSpeed (mkZone "hot" 80 85 70).
Proof.
  apply (GetZone_monotone Default 50 38 75 82).
  - simpl. repeat (constructor; [|repeat constructor; simpl; lia]). constructor.
  - lia.
  - lia.
  - reflexivity.
  - reflexivity.
Defined.

(** ** The history window *)

Lemma after_sublist cutoff history : sublist (after cutoff history) history.
Proof.
  unfold after. induction history as [|p l IH]; simpl; [constructor|].
  destruct (After (timestamp p) cutoff); [apply sublist_skip|apply sublist_cons];
    exact IH.
Qed.

Lemma after_after c1 c2 history :
  c1 <= c2 -> after c2 (after c1 history) = after c2 history.
Proof.
  intros Hc. unfold after. induction history as [|p l IH]; simpl; [reflexivity|].
  unfold After in *. rewrite !Z.gtb_ltb in *.
  destruct (Z.ltb_spec c1 (timestamp p)); simpl; rewrite ?Z.gtb_ltb.
  - destruct (Z.ltb_spec c2 (timestamp p)); rewrite IH; reflexivity.
  - destruct (Z.ltb_spec c2 (timestamp p)); [lia|exact IH].
Qed.

Lemma trimCutoff_eq now c :
  small (HistoryRetention (Monitoring c)) ->
  trimCutoff now c = now - HistoryRetention (Monitoring c) * Second.
Proof.
  unfold trimCutoff, go.mul, go.sub, Add, small, Second. intros H.
  rewrite (wrap_fits (0 - _)) by (unfold fits, minInt, maxInt; lia).
  rewrite wrap_fits by (unfold fits, minInt, maxInt; lia). lia.
Qed.

(** X5: [trimHistory] keeps of either history exactly the samples taken
    after the cutoff, in their order; trimming again at the same instant
    changes nothing; the cutoff is [HistoryRetention] seconds before the
    instant of the trim when the retention fits in 32 bits. *)
Theorem trimHistory_keeps_the_window now fc :
  let fc' := trimHistory now fc in
  let cutoff := trimCutoff now (cfg fc) in
  (forall p, In p (cpuHistory fc')
             <-> In p (cpuHistory fc) /\ cutoff < timestamp p)
  /\ (forall p, In p (gpuHistory fc')
                <-> In p (gpuHistory fc) /\ cutoff < timestamp p)
  /\ sublist (cpuHistory fc') (cpuHistory fc)
  /\ sublist (gpuHistory fc') (gpuHistory fc)
  /\ trimHistory now fc' = fc'
  /\ (small (HistoryRetention (Monitoring (cfg fc))) ->
      cutoff = now - HistoryRetention (Monitoring (cfg fc)) * Second).
Proof.
  intros fc' cutoff. unfold fc', trimHistory. simpl. fold cutoff.
  split; [intros p; apply after_In|].
  split; [intros p; apply after_In|].
  split; [apply after_sublist|].
  split; [apply after_sublist|].
  split.
  - unfold set_history. simpl. fold cutoff.
    rewrite !after_after by lia. reflexivity.
  - apply trimCutoff_eq.
Qed.

Lemma trimHistory_keeps_the_window_witness :
  trimCutoff (5000 * Second) (cfg cooling) = 5000 * Second - 3600 * Second.
Proof.
  apply (trimHistory_keeps_the_window (5000 * Second) cooling).
  unfold small. vm_compute. intuition discriminate.
Defined.




(** ** Eviction of hints *)

Lemma cleanExpired_hints now fc :
  hints (cleanExpired now fc) =
    filter (fun kv => expired (Hint_ExpiresAt kv.2) now = false) (hints fc).
Proof.
  unfold cleanExpired. simpl. destruct (override fc) as [o|]; simpl;
    [destruct (expired (ExpiresAt o) now)|]; reflexivity.
Qed.

Lemma expired_false expiresAt now :
  expired expiresAt now = false <-> expiresAt = 0 \/ now <= expiresAt.
Proof.
  unfold expired, IsZero, Before.
  destruct (Z.eqb_spec expiresAt 0); destruct (Z.ltb_spec expiresAt now);
    simpl; split; intros; try reflexivity; try discriminate; lia.
Qed.

Lemma hintMinSpeed_submap (hs hs' : gmap string WorkloadHint) :
  (forall source h, hs' !! source = Some h -> hs !! source = Some h) ->
  hintMinSpeed hs' <= hintMinSpeed hs.
Proof.
  intros Hsub.
  destruct (hintMinSpeed_spec hs) as (H0 & Hall & _).
  destruct (hintMinSpeed_spec hs') as (_ & _ & [Hz|(source & h & Hl & Hm)]).
  - lia.
  - rewrite Hm. exact (Hall _ _ (Hsub _ _ Hl)).
Qed.

(** X7: [cleanExpired] keeps exactly the hints without expiry or with an
    expiry not before [now], and changes none of them; the floor of the
    hints does not rise; evicting again at the same instant changes nothing,
    and an eviction at a later instant gives the same controller with or
    without the earlier one. *)
Theorem cleanExpired_evicts_only_expired_hints now fc :
  let fc' := cleanExpired now fc in
  (forall source h,
     hints fc' !! source = Some h
     <-> hints fc !! source = Some h
         /\ (Hint_ExpiresAt h = 0 \/ now <= Hint_ExpiresAt h))
  /\ hintMinSpeed (hints fc') <= hintMinSpeed (hints fc)
  /\ cleanExpired now fc' = fc'
  /\ (forall later, now <= later ->
        cleanExpired later fc' = cleanExpired later fc).
Proof.
  intros fc'.
  assert (Hlook : forall source h,
            hints fc' !! source = Some h
            <-> hints fc !! source = Some h
                /\ (Hint_ExpiresAt h = 0 \/ now <= Hint_ExpiresAt h)).
  { intros source h. unfold fc'. rewrite cleanExpired_hints.
    rewrite map_lookup_filter_Some. simpl. rewrite expired_false. reflexivity. }
  split; [exact Hlook|]. split.
  { apply hintMinSpeed_submap. intros source h Hl.
    apply Hlook in Hl. apply Hl. }
  assert (Hagain : forall later, now <= later ->
            cleanExpired later fc' = cleanExpired later fc).
  { intros later Hlater.
    assert (Hh : hints (cleanExpired later fc') = hints (cleanExpired later fc)).
    { rewrite !cleanExpired_hints. apply map_eq. intros source.
      apply option_eq. intros h.
      rewrite !map_lookup_filter_Some. simpl. rewrite Hlook, !expired_false.
      intuition lia. }
    assert (Ho : override (cleanExpired later fc')
                 = override (cleanExpired later fc)).
    { rewrite !cleanExpired_override. unfold fc'.
      rewrite cleanExpired_override.
      destruct (override fc) as [o|]; [|reflexivity].
      destruct (expired (ExpiresAt o) now) eqn:E1;
        destruct (expired (ExpiresAt o) later) eqn:E2; try reflexivity.
      apply expired_false in E2. unfold expired, IsZero, Before in E1.
      destruct (Z.eqb_spec (ExpiresAt o) 0);
        destruct (Z.ltb_spec (ExpiresAt o) now); simpl in E1;
        try discriminate; lia. }
    revert Hh Ho. unfold fc', cleanExpired, set_hints, set_override. simpl.
    intros Hh Ho.
    destruct (override fc) as [o|]; simpl in *.
    - destruct (expired (ExpiresAt o) now) eqn:E1; simpl in *;
        destruct (expired (ExpiresAt o) later) eqn:E2; simpl in *;
        try discriminate; rewrite ?E2 in *; simpl in *; congruence.
    - congruence. }
  split; [|exact Hagain].
  rewrite (Hagain now (Z.le_refl _)). reflexivity.
Qed.

Lemma cleanExpired_evicts_only_expired_hints_witness :
  hints (cleanExpired (20 * Second) transcribing) !! "whisper"
  = Some (mkWorkloadHint "gpu_load" "start" "high" "whisper" 45 0 Second).
Proof.
  apply (cleanExpired_evicts_only_expired_hints (20 * Second) transcribing).
  split; [reflexivity|left; reflexivity].
Defined.

(** ** Hints as a floor *)

Lemma clamp_monotone fcc a b : a <= b -> clamp fcc a <= clamp fcc b.
Proof. unfold clamp. rewrite !max_Zmax, !min_Zmin. lia. Qed.

(** X9: without override, and with [MinSpeed <= MaxSpeed], the target is at
    least the [MinFanSpeed] of every registered hint, capped at [MaxSpeed];
    and the hints only raise it: the target is at least the one of the same
    controller without hints, or with any one hint removed. *)
Theorem hints_are_a_floor cpuReading gpuReading now fc :
  override fc = None ->
  MinSpeed (FanControl (cfg fc)) <= MaxSpeed (FanControl (cfg fc)) ->
  let target := (calculateTarget cpuReading gpuReading now fc).2 in
  (forall source h,
     hints fc !! source = Some h ->
     Z.min (MinFanSpeed h) (MaxSpeed (FanControl (cfg fc))) <= target)
  /\ (calculateTarget cpuReading gpuReading now (set_hints ∅ fc)).2 <= target
  /\ (forall source,
        (calculateTarget cpuReading gpuReading now (RemoveHint source fc)).2
        <= target).
Proof.
  intros Ho Hlim target.
  destruct (calculateTarget_auto cpuReading gpuReading now fc Ho) as (Ht & _).
  fold target in Ht.
  assert (Hmono : forall hs,
            (forall source h, hs !! source = Some h -> hints fc !! source = Some h) ->
            (calculateTarget cpuReading gpuReading now (set_hints hs fc)).2
            <= target).
  { intros hs Hsub.
    destruct (calculateTarget_auto cpuReading gpuReading now (set_hints hs fc) Ho)
      as (Ht' & _).
    simpl in Ht'. rewrite Ht', Ht. apply clamp_monotone.
    rewrite !applyHintMin_Zmax.
    pose proof (hintMinSpeed_submap (hints fc) hs Hsub). lia. }
  split; [|split].
  - intros source h Hl.
    destruct (hintMinSpeed_spec (hints fc)) as (_ & Hall & _).
    specialize (Hall _ _ Hl). rewrite Ht.
    unfold clamp. rewrite max_Zmax, min_Zmin, applyHintMin_Zmax. lia.
  - apply Hmono. intros source h Hl. rewrite lookup_empty in Hl. discriminate.
  - intros source. apply (Hmono (delete source (hints fc))).
    intros s h Hl. apply lookup_delete_Some in Hl. apply Hl.
Qed.

Lemma hints_are_a_floor_witness :
  Z.min 45 100 <= (calculateTarget cool noGPU (3 * Second) transcribing).2.
Proof.
  destruct (hints_are_a_floor cool noGPU (3 * Second) transcribing) as (H & _).
  - reflexivity.
  - vm_compute. discriminate.
  - exact (H "whisper"
             (mkWorkloadHint "gpu_load" "start" "high" "whisper" 45 0 Second)
             eq_refl).
Defined.

(** ** The zone *)

(** X10: without override the decision names the zone from the readings:
    "hot" above 80 (CPU) or 85 (GPU), else "warm" above 70 or 75, else
    "active" over a threshold, else "idle"; and it never reads the zone: the
    call returns the same whatever zone the controller held. *)
Theorem zone_follows_the_readings cpuReading gpuReading now fc :
  override fc = None ->
  let fcc := FanControl (cfg fc) in
  let cpuMax := CPU_Max cpuReading in
  let gpuMax := GPU_Max gpuReading in
  let zone := currentZone (calculateTarget cpuReading gpuReading now fc).1 in
  (zone = "hot" <-> cpuMax > 80 \/ gpuMax > 85)
  /\ (zone = "warm" <->
      cpuMax <= 80 /\ gpuMax <= 85 /\ (cpuMax > 70 \/ gpuMax > 75))
  /\ (zone = "active" <->
      cpuMax <= 70 /\ gpuMax <= 75
      /\ (cpuMax > cpuThreshold fcc \/ gpuMax > gpuThreshold fcc))
  /\ (zone = "idle" <->
      cpuMax <= 70 /\ gpuMax <= 75
      /\ cpuMax <= cpuThreshold fcc /\ gpuMax <= gpuThreshold fcc)
  /\ (forall zone0,
        calculateTarget cpuReading gpuReading now (set_currentZone zone0 fc)
        = calculateTarget cpuReading gpuReading now fc).
Proof.
  intros Ho fcc cpuMax gpuMax zone.
  destruct (calculateTarget_auto cpuReading gpuReading now fc Ho)
    as (_ & _ & Hz & _).
  fold fcc cpuMax gpuMax zone in Hz. rewrite Hz.
  unfold zoneName, overThreshold. rewrite !Z.gtb_ltb.
  refine (conj _ (conj _ (conj _ (conj _ _)))).
  5: { intros zone0. unfold calculateTarget. simpl. rewrite Ho.
       destruct (overThreshold _ _ _); reflexivity. }
  all: destruct (Z.ltb_spec 80 cpuMax); destruct (Z.ltb_spec 85 gpuMax);
    destruct (Z.ltb_spec 70 cpuMax); destruct (Z.ltb_spec 75 gpuMax);
    destruct (Z.ltb_spec (cpuThreshold fcc) cpuMax);
    destruct (Z.ltb_spec (gpuThreshold fcc) gpuMax);
    simpl; split; intros Hzone; try discriminate; try reflexivity; try lia.
Qed.

Lemma zone_follows_the_readings_witness :
  currentZone (calculateTarget hot90 noGPU (3 * Second) idling).1 = "hot".
Proof.
  apply (zone_follows_the_readings hot90 noGPU (3 * Second) idling).
  - reflexivity.
  - left. simpl. lia.
Defined.

(** ** The cycle and the actuator *)

(** The controller a cycle reaches its decision with. *)
Lemma controlLoop_anatomy inp fc :
  let cpuReading :=
    match cpuRead inp with inl r => r | inr _ => mkCPUReading [] 0 end in
  let gpuReading :=
    match gpuRead inp with inl r => r | inr _ => mkGPUReading [] 0 end in
  let decided :=
    calculateTarget cpuReading gpuReading (tDecide inp)
      (cleanExpired (tClean inp)
         (trimHistory (tTrim inp)
            (set_history
               (cpuHistory fc ++ [mkTempPoint (CPU_Max cpuReading) (tAppend inp)])
               (gpuHistory fc ++ [mkTempPoint (GPU_Max gpuReading) (tAppend inp)])
               (set_lastReadings cpuReading gpuReading fc)))) in
  after_cycle (controlLoop inp fc) = set_currentSpeed decided.2 decided.1
  /\ cycle_target (controlLoop inp fc) = decided.2
  /\ cycle_events (controlLoop inp fc) =
       match cpuRead inp with inl _ => [] | inr e => [LogCPUReadError e] end
       ++ match gpuRead inp with inl _ => [] | inr e => [LogGPUReadError e] end
       ++ [IpmiSetSpeed decided.2]
       ++ match ipmiRun inp with Some e => [LogSetSpeedFailed e] | None => [] end
       ++ [RecordReading (CPU_Max cpuReading) (GPU_Max gpuReading) decided.2;
           LogCycle (CPU_Max cpuReading) (GPU_Max gpuReading)
                    (currentZone decided.1) decided.2].
Proof.
  intros cpuReading gpuReading decided.
  unfold controlLoop, decided, cpuReading, gpuReading, setFanSpeed.
  destruct (cpuRead inp) as [c|e1]; destruct (gpuRead inp) as [g|e2];
    cbv beta iota zeta;
    match goal with
    | |- context [calculateTarget ?c ?g ?t ?f] =>
      set (d := calculateTarget c g t f)
    end;
    repeat match goal with
    | |- context [calculateTarget ?c ?g ?t ?f] =>
      change (calculateTarget c g t f) with d
    end;
    destruct d as [f' tg]; simpl; repeat split; reflexivity.
Qed.

(** X11: a cycle records its target as the speed in force and issues the
    [ipmitool] command for it; when the command fails the failure is logged,
    and the controller and the target are those of the cycle in which it
    succeeds. *)
Theorem cycle_takes_the_target_as_applied inp fc :
  let out := controlLoop inp fc in
  currentSpeed (after_cycle out) = cycle_target out
  /\ In (IpmiSetSpeed (cycle_target out)) (cycle_events out)
  /\ (forall err, ipmiRun inp = Some err ->
        In (LogSetSpeedFailed err) (cycle_events out))
  /\ (forall run,
        let out' :=
          controlLoop (mkCycleInput (cpuRead inp) (gpuRead inp) (tAppend inp)
                         (tTrim inp) (tClean inp) (tDecide inp) run) fc in
        after_cycle out' = after_cycle out
        /\ cycle_target out' = cycle_target out).
Proof.
  intros out. unfold out.
  destruct (controlLoop_anatomy inp fc) as (Ha & Ht & He).
  split; [rewrite Ha, Ht; reflexivity|]. split; [|split].
  - rewrite He, Ht. apply in_or_app. right. apply in_or_app. right.
    left. reflexivity.
  - intros err Herr. rewrite He, Herr.
    apply in_or_app. right. apply in_or_app. right.
    right. left. reflexivity.
  - intros run.
    destruct (controlLoop_anatomy
                (mkCycleInput (cpuRead inp) (gpuRead inp) (tAppend inp)
                   (tTrim inp) (tClean inp) (tDecide inp) run) fc)
      as (Ha' & Ht' & _).
    simpl in Ha', Ht'. rewrite Ha, Ht, Ha', Ht'. split; reflexivity.
Qed.

Lemma cycle_takes_the_target_as_applied_witness :
  In (LogSetSpeedFailed "exit status 1")
     (cycle_events (controlLoop (blindCycle (1010 * Second)) cooling))
  /\ currentSpeed (after_cycle (controlLoop (blindCycle (1010 * Second)) cooling))
     = 50.
Proof.
  destruct (cycle_takes_the_target_as_applied (blindCycle (1010 * Second)) cooling)
    as (Hc & _ & Hlog & _).
  split; [exact (Hlog "exit status 1" eq_refl)|exact Hc].
Defined.

(** X12: a cycle of the demo controller ends in the controller and the
    target of a cycle of the real one that reads the same two readings at
    the same instants, whatever the actuator does, and stores the same row
    in the history. *)
Theorem mockControlLoop_decides_as_controlLoop (inp : mock.cycleInput) run fc :
  let real :=
    controlLoop
      (mkCycleInput (inl (mock.cpuReading inp)) (inl (mock.gpuReading inp))
         (mock.tAppend inp) (mock.tTrim inp) (mock.tClean inp)
         (mock.tDecide inp) run) fc in
  mock.mockControlLoop inp fc
  = (after_cycle real, cycle_target real,
     [mock.RecordReading (CPU_Max (mock.cpuReading inp))
        (GPU_Max (mock.gpuReading inp)) (cycle_target real);
      mock.LogCycle (CPU_Max (mock.cpuReading inp))
        (GPU_Max (mock.gpuReading inp))
        (currentZone (after_cycle real)) (cycle_target real)]).
Proof.
  intros real. unfold real.
  destruct (controlLoop_anatomy
              (mkCycleInput (inl (mock.cpuReading inp)) (inl (mock.gpuReading inp))
                 (mock.tAppend inp) (mock.tTrim inp) (mock.tClean inp)
                 (mock.tDecide inp) run) fc) as (Ha & Ht & _).
  simpl in Ha, Ht. rewrite Ha, Ht.
  unfold mock.mockControlLoop. cbv beta iota zeta.
  match goal with
  | |- context [calculateTarget ?c ?g ?t ?f] =>
    set (d := calculateTarget c g t f)
  end;
  repeat match goal with
  | |- context [calculateTarget ?c ?g ?t ?f] =>
    change (calculateTarget c g t f) with d
  end.
  destruct d as [f' tg]. reflexivity.
Qed.

(** ** The registry under repeated calls *)

(** X13: a second [AddHint] for the same source replaces the first, and two
    for different sources can be made in either order; the registry grows by
    one entry for a new source and keeps its size for a known one. *)
Theorem AddHint_replaces_by_source h1 t1 h2 t2 fc :
  (Source h1 = Source h2 ->
   AddHint h2 t2 (AddHint h1 t1 fc) = AddHint h2 t2 fc)
  /\ (Source h1 <> Source h2 ->
      AddHint h2 t2 (AddHint h1 t1 fc) = AddHint h1 t1 (AddHint h2 t2 fc))
  /\ (hints fc !! Source h1 = None ->
      size (hints (AddHint h1 t1 fc)) = S (size (hints fc)))
  /\ (is_Some (hints fc !! Source h1) ->
      size (hints (AddHint h1 t1 fc)) = size (hints fc)).
Proof.
  unfold AddHint, set_hints. simpl. split; [|split; [|split]].
  - intros ->. rewrite insert_insert_eq. reflexivity.
  - intros Hne. rewrite insert_insert_ne by congruence. reflexivity.
  - intros Hn. apply map_size_insert_None, Hn.
  - intros Hs. apply map_size_insert_Some, Hs.
Qed.

Lemma AddHint_replaces_by_source_witness :
  AddHint (mkWorkloadHint "gpu_load" "start" "low" "whisper" 0 0 0) (2 * Second)
          transcribing
  = AddHint (mkWorkloadHint "gpu_load" "start" "low" "whisper" 0 0 0)
            (2 * Second) idling
  /\ size (hints (AddHint (mkWorkloadHint "cpu_load" "start" "low" "ffmpeg" 0 0 0)
                          (2 * Second) transcribing)) = 2%nat.
Proof.
  split.
  - apply (AddHint_replaces_by_source
             (mkWorkloadHint "gpu_load" "start" "high" "whisper" 0 0 0) Second
             (mkWorkloadHint "gpu_load" "start" "low" "whisper" 0 0 0)
             (2 * Second) idling).
    reflexivity.
  - apply (AddHint_replaces_by_source
             (mkWorkloadHint "cpu_load" "start" "low" "ffmpeg" 0 0 0)
             (2 * Second)
             (mkWorkloadHint "cpu_load" "start" "low" "ffmpeg" 0 0 0)
             (2 * Second) transcribing).
    reflexivity.
Defined.

(** ** The status snapshot *)

(** X14: [GetStatus] reports the mode "override" exactly when an override
    is present, "hinted" exactly when none is and a hint is registered, and
    "auto" otherwise; its active hints are the registered hints, one entry
    each, expired or not; it reports the override as it is. *)
Theorem GetStatus_mode_and_hints now tc tg fc :
  let st := GetStatus now tc tg fc in
  (st_Mode st = "override" <-> override fc <> None)
  /\ (st_Mode st = "hinted" <-> override fc = None /\ hints fc <> ∅)
  /\ (st_Mode st = "auto" <-> override fc = None /\ hints fc = ∅)
  /\ (forall h, In h (st_ActiveHints st)
                <-> exists source, hints fc !! source = Some h)
  /\ length (st_ActiveHints st) = size (hints fc)
  /\ st_Override st = override fc.
Proof.
  unfold GetStatus. simpl.
  assert (Hsize : (Z.of_nat (size (hints fc)) >? 0) = true <-> hints fc <> ∅).
  { rewrite Z.gtb_ltb, Z.ltb_lt. rewrite <- (map_size_non_empty_iff (hints fc)). lia. }
  refine (conj _ (conj _ (conj _ (conj _ (conj _ eq_refl))))).
  - destruct (override fc); [split; [discriminate|reflexivity]|].
    destruct (Z.of_nat (size (hints fc)) >? 0); split; try discriminate;
      congruence.
  - destruct (override fc).
    + split; [discriminate|intros (Hd & _); discriminate].
    + destruct (Z.of_nat (size (hints fc)) >? 0) eqn:E.
      * split; [intros _; split; [reflexivity|apply Hsize; reflexivity]
               |reflexivity].
      * split; [discriminate|]. intros (_ & Hne). apply Hsize in Hne.
        discriminate.
  - destruct (override fc).
    + split; [discriminate|intros (Hd & _); discriminate].
    + destruct (Z.of_nat (size (hints fc)) >? 0) eqn:E.
      * split; [discriminate|]. intros (_ & He).
        assert (Hne : hints fc <> ∅) by (apply Hsize; reflexivity).
        congruence.
      * split; [|reflexivity]. intros _. split; [reflexivity|].
        destruct (decide (hints fc = ∅)) as [He|Hne]; [exact He|].
        apply Hsize in Hne. discriminate.
  - intros h. rewrite <- list_elem_of_In, list_elem_of_fmap. split.
    + intros ([source h'] & -> & Hin). exists source.
      apply elem_of_map_to_list in Hin. exact Hin.
    + intros (source & Hl). exists (source, h). split; [reflexivity|].
      apply elem_of_map_to_list. exact Hl.
  - rewrite length_fmap, length_map_to_list. reflexivity.
Qed.

Lemma GetStatus_mode_and_hints_witness :
  st_Mode (GetStatus Second Second Second transcribing) = "hinted".
Proof.
  destruct (GetStatus_mode_and_hints Second Second Second transcribing)
    as (_ & Hhinted & _).
  apply (proj2 Hhinted).
  split; [reflexivity|].
  intros H. apply (f_equal (fun m => m !! "whisper")) in H.
  vm_compute in H. discriminate.
Defined.

(** ** The lifetime of a hint *)

Lemma runCycles_keeps_unexpiring_hint inps : forall fc source h,
  hints fc !! source = Some h -> Hint_ExpiresAt h = 0 ->
  hints (runCycles inps fc).1 !! source = Some h.
Proof.
  induction inps as [|inp rest IH]; intros fc source h Hl Hz; simpl;
    [exact Hl|].
  specialize (IH (after_cycle (controlLoop inp fc)) source h).
  destruct (runCycles rest (after_cycle (controlLoop inp fc))) as [fc' ts].
  simpl in *. apply IH; [|exact Hz].
  rewrite controlLoop_hints. apply map_lookup_filter_Some.
  split; [exact Hl|]. simpl. rewrite Hz. reflexivity.
Qed.

(** X8: a registered hint without expiry stays registered, unchanged,
    through a run of cycles of any length; a hint with an expiry stays
    through a cycle that evicts at an instant up to the expiry and is gone
    after a cycle that evicts later. *)
Theorem hint_lifetime source h fc :
  hints fc !! source = Some h ->
  (Hint_ExpiresAt h = 0 ->
   forall inps, hints (runCycles inps fc).1 !! source = Some h)
  /\ (forall inp,
        tClean inp <= Hint_ExpiresAt h ->
        hints (after_cycle (controlLoop inp fc)) !! source = Some h)
  /\ (forall inp,
        Hint_ExpiresAt h <> 0 -> Hint_ExpiresAt h < tClean inp ->
        hints (after_cycle (controlLoop inp fc)) !! source = None).
Proof.
  intros Hl. split; [|split].
  - intros Hz inps. exact (runCycles_keeps_unexpiring_hint inps fc source h Hl Hz).
  - intros inp Ht. rewrite controlLoop_hints. apply map_lookup_filter_Some.
    split; [exact Hl|]. simpl. apply expired_false. right. exact Ht.
  - intros inp Hnz Ht. rewrite controlLoop_hints.
    apply map_lookup_filter_None. right. intros h' Hl'.
    rewrite Hl in Hl'. injection Hl' as <-. simpl.
    intros He. apply expired_false in He. lia.
Qed.

Lemma hint_lifetime_witness :
  hints (runCycles [hotCycle (10 * Second); blindCycle (20 * Second)]
                   transcribing).1 !! "whisper"
  = Some (mkWorkloadHint "gpu_load" "start" "high" "whisper" 45 0 Second).
Proof.
  destruct (hint_lifetime "whisper"
              (mkWorkloadHint "gpu_load" "start" "high" "whisper" 45 0 Second)
              transcribing eq_refl) as (H & _).
  exact (H eq_refl [hotCycle (10 * Second); blindCycle (20 * Second)]).
Defined.

(** ** The handlers *)

(** The bind accepts a decoded request exactly when none of its required
    fields holds the zero value. *)
Lemma ShouldBindJSON_accepts {A : Type} (missing : A -> list string) req :
  missing req = [] -> api.ShouldBindJSON missing (inl req) = inl req.
Proof. unfold api.ShouldBindJSON. intros ->. reflexivity. Qed.

Lemma ShouldBindJSON_refuses {A : Type} (missing : A -> list string) req :
  missing req <> [] ->
  api.ShouldBindJSON missing (inl req) = inr (api.Required (missing req)).
Proof.
  unfold api.ShouldBindJSON. destruct (missing req); [congruence|reflexivity].
Qed.

(** The fields [missingHint] names are the empty ones among [Type],
    [Action] and [Source]. *)
Lemma missingHint_spec req :
  (In "Type" (api.missingHint req) <-> api.req_Type req = "")
  /\ (In "Action" (api.missingHint req) <-> api.req_Action req = "")
  /\ (In "Source" (api.missingHint req) <-> api.req_Source req = "")
  /\ (api.missingHint req = [] <->
      api.req_Type req <> "" /\ api.req_Action req <> ""
      /\ api.req_Source req <> "").
Proof.
  unfold api.missingHint.
  destruct (String.eqb_spec (api.req_Type req) "");
    destruct (String.eqb_spec (api.req_Action req) "");
    destruct (String.eqb_spec (api.req_Source req) ""); simpl;
    repeat split; intros; try congruence; try tauto;
    repeat match goal with
           | H : _ \/ _ |- _ => destruct H
           | H : _ /\ _ |- _ => destruct H
           end; try discriminate; try contradiction; try congruence; tauto.
Qed.

(** The floor [AddHint] stores, by intensity. *)
Lemma AddHint_floor_table (i : string) :
  let floor := if String.eqb i "high" then 45
               else if String.eqb i "medium" then 25
               else if String.eqb i "low" then 15 else 25 in
  (i = "high" -> floor = 45)
  /\ (i = "medium" -> floor = 25)
  /\ (i = "low" -> floor = 15)
  /\ (i <> "high" -> i <> "medium" -> i <> "low" -> floor = 25).
Proof.
  cbv zeta. refine (conj _ (conj _ (conj _ _))).
  - intros ->. reflexivity.
  - intros ->. reflexivity.
  - intros ->. reflexivity.
  - intros Hh Hm Hl.
    apply String.eqb_neq in Hh, Hm, Hl. rewrite Hh, Hm, Hl. reflexivity.
Qed.

(** X15: [handleHint] refuses, with the reply 400 and the controller as it
    was, a body that does not decode and a request whose [type], [action] or
    [source] is empty or absent, naming those fields.  Of the requests it
    binds, the action "stop" removes the hint of the source, and any other
    action registers a hint for the source under the reply 200, which
    carries the hint as stored: type, action, intensity and source of the
    request, the floor of the intensity (45 for "high", 25 for "medium", 15
    for "low", 25 for any other), created at the instant of [AddHint],
    without expiry when the estimated duration is not positive and, for a
    duration within 32 bits, expiring that many seconds after the request
    otherwise.  The floor of the registry is then at least that of the hint,
    and the hints of the other sources are left alone. *)
Theorem handleHint_registers_or_removes decoded tExpires tCreated fc :
  let r := api.handleHint decoded tExpires tCreated fc in
  (api.statusCode r.1 = 400 -> r.2 = fc)
  /\ (forall err, decoded = inr err ->
        r = (api.BadRequest (api.Malformed err), fc))
  /\ (forall req, decoded = inl req ->
        api.req_Type req = "" \/ api.req_Action req = ""
        \/ api.req_Source req = "" ->
        r = (api.BadRequest (api.Required (api.missingHint req)), fc)
        /\ (In "Type" (api.missingHint req) <-> api.req_Type req = "")
        /\ (In "Action" (api.missingHint req) <-> api.req_Action req = "")
        /\ (In "Source" (api.missingHint req) <-> api.req_Source req = ""))
  /\ (forall req, decoded = inl req ->
        api.req_Type req <> "" -> api.req_Action req <> "" ->
        api.req_Source req <> "" ->
        (api.req_Action req = "stop" ->
         r = (api.HintRemoved (api.req_Source req),
              RemoveHint (api.req_Source req) fc))
        /\ (api.req_Action req <> "stop" ->
            exists stored,
              hints r.2 !! api.req_Source req = Some stored
              /\ r.1 = api.HintRegistered stored
              /\ api.statusCode r.1 = 200
              /\ Type_ stored = api.req_Type req
              /\ Action stored = api.req_Action req
              /\ Source stored = api.req_Source req
              /\ Intensity stored = api.req_Intensity req
              /\ Hint_CreatedAt stored = tCreated
              /\ (api.req_Intensity req = "high" -> MinFanSpeed stored = 45)
              /\ (api.req_Intensity req = "medium" -> MinFanSpeed stored = 25)
              /\ (api.req_Intensity req = "low" -> MinFanSpeed stored = 15)
              /\ (api.req_Intensity req <> "high" ->
                  api.req_Intensity req <> "medium" ->
                  api.req_Intensity req <> "low" -> MinFanSpeed stored = 25)
              /\ MinFanSpeed stored <= hintMinSpeed (hints r.2)
              /\ (api.req_DurationEstimate req <= 0 ->
                  Hint_ExpiresAt stored = 0)
              /\ (0 < api.req_DurationEstimate req ->
                  small (api.req_DurationEstimate req) ->
                  Hint_ExpiresAt stored
                  = tExpires + api.req_DurationEstimate req * Second)
              /\ (forall source, source <> api.req_Source req ->
                    hints r.2 !! source = hints fc !! source))).
Proof.
  intros r. unfold r, api.handleHint.
  refine (conj _ (conj _ (conj _ _))).
  - destruct (api.ShouldBindJSON api.missingHint decoded) as [req|err];
      [|reflexivity].
    destruct (String.eqb (api.req_Action req) "stop"); discriminate.
  - intros err ->. reflexivity.
  - intros req -> Hempty.
    destruct (missingHint_spec req) as (Ht & Ha & Hs & Hnil).
    rewrite ShouldBindJSON_refuses by (rewrite Hnil; tauto).
    tauto.
  - intros req -> Ht Ha Hs.
    destruct (missingHint_spec req) as (_ & _ & _ & Hnil).
    rewrite ShouldBindJSON_accepts by (apply Hnil; tauto).
    split.
    + intros ->. reflexivity.
    + intros Hne. apply String.eqb_neq in Hne. rewrite Hne.
      destruct (AddHint_floor_table (api.req_Intensity req))
        as (Fh & Fm & Fl & Fo).
      assert (Hfloor : forall (hs : gmap string WorkloadHint) source stored,
                hs !! source = Some stored ->
                MinFanSpeed stored <= hintMinSpeed hs).
      { intros hs source stored Hl.
        destruct (hintMinSpeed_spec hs) as (_ & Hall & _).
        exact (Hall _ _ Hl). }
      destruct (Z.gtb_spec (api.req_DurationEstimate req) 0) as [Hd|Hd];
        unfold AddHint; simpl; rewrite !lookup_insert_eq; simpl;
        eexists; (split; [reflexivity|]); (split; [reflexivity|]);
        (split; [reflexivity|]); (split; [reflexivity|]);
        (split; [reflexivity|]); (split; [reflexivity|]);
        (split; [reflexivity|]); (split; [reflexivity|]);
        (split; [exact Fh|]); (split; [exact Fm|]);
        (split; [exact Fl|]); (split; [exact Fo|]);
        (split; [apply (Hfloor _ (api.req_Source req)), lookup_insert_eq|]);
        simpl.
      * split; [lia|]. split.
        -- intros _ Hsm. unfold Add, go.mul, small, Second in *.
           rewrite wrap_fits by (unfold fits, minInt, maxInt; lia).
           reflexivity.
        -- intros source Hsrc. apply lookup_insert_ne. congruence.
      * split; [reflexivity|]. split; [lia|].
        intros source Hsrc. apply lookup_insert_ne. congruence.
Qed.

Lemma handleHint_registers_or_removes_witness :
  (exists stored,
     hints (api.handleHint
              (inl (api.mkHintRequest "gpu_load" "start" "high" 300 "whisper"))
              (10 * Second) (10 * Second) idling).2 !! "whisper" = Some stored
     /\ MinFanSpeed stored = 45
     /\ Hint_ExpiresAt stored = 10 * Second + 300 * Second)
  /\ api.handleHint (inl (api.mkHintRequest "gpu_load" "" "high" 300 "whisper"))
                    (10 * Second) (10 * Second) idling
     = (api.BadRequest (api.Required ["Action"]), idling).
Proof.
  split.
  - destruct (handleHint_registers_or_removes
                (inl (api.mkHintRequest "gpu_load" "start" "high" 300 "whisper"))
                (10 * Second) (10 * Second) idling) as (_ & _ & _ & H).
    destruct (H (api.mkHintRequest "gpu_load" "start" "high" 300 "whisper")
                eq_refl) as (_ & Hreg); [discriminate..|].
    destruct Hreg
      as (stored & Hl & _ & _ & _ & _ & _ & _ & _ & Hhigh & _ & _ & _ & _ & _
          & He & _);
      [discriminate|].
    exists stored. refine (conj Hl (conj (Hhigh eq_refl) _)).
    apply He; [simpl; lia|]. unfold small. simpl. lia.
  - destruct (handleHint_registers_or_removes
                (inl (api.mkHintRequest "gpu_load" "" "high" 300 "whisper"))
                (10 * Second) (10 * Second) idling) as (_ & _ & H & _).
    destruct (H (api.mkHintRequest "gpu_load" "" "high" 300 "whisper") eq_refl)
      as (Hr & _); [right; left; reflexivity|].
    exact Hr.
Defined.

(** X16: [handleOverride] replies 200 exactly for a body that decodes with
    a speed from 1 to 100, and leaves the controller as it is whenever it
    replies 400: for a body that does not decode, for a speed that is 0 or
    absent, which the required [speed] field refuses, and for a speed below
    0 or above 100.  For a speed from 1 to 100 it installs an override of
    that speed, with the reason of the request, created at the instant of
    [SetOverride], expiring [duration] seconds later when [duration] is
    positive and never otherwise (for a duration within 32 bits); every
    decision under it returns the speed. *)
Theorem handleOverride_accepts_only_percentages decoded created now fc :
  let r := api.handleOverride decoded created now fc in
  (api.statusCode r.1 = 400 -> r.2 = fc)
  /\ (api.statusCode r.1 = 200 <->
      exists req, decoded = inl req /\ 1 <= api.req_Speed req <= 100)
  /\ (forall err, decoded = inr err ->
        r = (api.BadRequest (api.Malformed err), fc))
  /\ (forall req, decoded = inl req -> api.req_Speed req = 0 ->
        r = (api.BadRequest (api.Required ["Speed"]), fc))
  /\ (forall req, decoded = inl req ->
        api.req_Speed req < 0 \/ 100 < api.req_Speed req ->
        r = (api.BadRequest (api.Message "speed must be 0-100"), fc))
  /\ (forall req, decoded = inl req ->
        1 <= api.req_Speed req <= 100 ->
        r.1 = api.OverrideSet (api.req_Speed req) (api.req_Duration req)
        /\ exists o,
             override r.2 = Some o
             /\ Speed o = api.req_Speed req
             /\ 1 <= Speed o <= 100
             /\ Reason o = api.req_Reason req
             /\ CreatedAt o = created
             /\ (small (api.req_Duration req) ->
                 ExpiresAt o = if api.req_Duration req >? 0
                               then now + api.req_Duration req * Second
                               else 0)
             /\ forall cpuReading gpuReading t,
                  (calculateTarget cpuReading gpuReading t r.2).2
                  = api.req_Speed req).
Proof.
  intros r.
  assert (Hmal : forall err, decoded = inr err ->
            r = (api.BadRequest (api.Malformed err), fc)).
  { intros err ->. reflexivity. }
  assert (Hzero : forall req, decoded = inl req -> api.req_Speed req = 0 ->
            r = (api.BadRequest (api.Required ["Speed"]), fc)).
  { intros req -> H0. unfold r, api.handleOverride, api.ShouldBindJSON,
      api.missingOverride. rewrite H0. reflexivity. }
  assert (Hout : forall req, decoded = inl req ->
            api.req_Speed req < 0 \/ 100 < api.req_Speed req ->
            r = (api.BadRequest (api.Message "speed must be 0-100"), fc)).
  { intros req -> Hr. unfold r, api.handleOverride, api.ShouldBindJSON,
      api.missingOverride.
    destruct (Z.eqb_spec (api.req_Speed req) 0); [lia|].
    destruct (Z.ltb_spec (api.req_Speed req) 0);
      destruct (Z.gtb_spec (api.req_Speed req) 100); simpl;
      try reflexivity; lia. }
  assert (Hin : forall req, decoded = inl req ->
            1 <= api.req_Speed req <= 100 ->
            r = (api.OverrideSet (api.req_Speed req) (api.req_Duration req),
                 SetOverride (api.req_Speed req)
                   (go.mul (api.req_Duration req) Second)
                   (api.req_Reason req) created now fc)).
  { intros req -> Hr. unfold r, api.handleOverride, api.ShouldBindJSON,
      api.missingOverride.
    destruct (Z.eqb_spec (api.req_Speed req) 0); [lia|].
    destruct (Z.ltb_spec (api.req_Speed req) 0); [lia|].
    destruct (Z.gtb_spec (api.req_Speed req) 100); [lia|]. reflexivity. }
  assert (Hcases : forall req, decoded = inl req ->
            api.req_Speed req = 0
            \/ (api.req_Speed req < 0 \/ 100 < api.req_Speed req)
            \/ 1 <= api.req_Speed req <= 100) by (intros; lia).
  refine (conj _ (conj _ (conj Hmal (conj Hzero (conj Hout _))))).
  - destruct decoded as [req|err].
    + destruct (Hcases req eq_refl) as [H0|[Hr|Hr]].
      * rewrite (Hzero req eq_refl H0). reflexivity.
      * rewrite (Hout req eq_refl Hr). reflexivity.
      * rewrite (Hin req eq_refl Hr). discriminate.
    + rewrite (Hmal err eq_refl). reflexivity.
  - split.
    + destruct decoded as [req|err].
      * destruct (Hcases req eq_refl) as [H0|[Hr|Hr]].
        -- rewrite (Hzero req eq_refl H0). discriminate.
        -- rewrite (Hout req eq_refl Hr). discriminate.
        -- intros _. exists req. split; [reflexivity|exact Hr].
      * rewrite (Hmal err eq_refl). discriminate.
    + intros (req & Hd & Hr). rewrite (Hin req Hd Hr). reflexivity.
  - intros req Hd Hr. rewrite (Hin req Hd Hr). cbn [fst snd].
    split; [reflexivity|].
    unfold SetOverride.
    eexists. split; [reflexivity|].
    split; [destruct (_ >? 0); reflexivity|].
    split; [destruct (_ >? 0); simpl; lia|].
    split; [destruct (_ >? 0); reflexivity|].
    split; [destruct (_ >? 0); reflexivity|].
    split.
    + intros Hs. unfold go.mul, small, Second, Add in *.
      rewrite wrap_fits by (unfold fits, minInt, maxInt; lia).
      destruct (Z.gtb_spec (api.req_Duration req * 1000000000) 0);
        destruct (Z.gtb_spec (api.req_Duration req) 0); simpl;
        try reflexivity; lia.
    + intros c g t. unfold calculateTarget. simpl.
      destruct (_ >? 0); reflexivity.
Qed.

Lemma handleOverride_accepts_only_percentages_witness :
  api.handleOverride (inl (api.mkOverrideRequest 101 60 "burn-in"))
                     Second Second idling
  = (api.BadRequest (api.Message "speed must be 0-100"), idling)
  /\ api.handleOverride (inl (api.mkOverrideRequest 0 60 "silence"))
                        Second Second idling
     = (api.BadRequest (api.Required ["Speed"]), idling)
  /\ (api.handleOverride (inl (api.mkOverrideRequest 100 60 "burn-in"))
                         Second Second idling).1
     = api.OverrideSet 100 60.
Proof.
  destruct (handleOverride_accepts_only_percentages
              (inl (api.mkOverrideRequest 101 60 "burn-in")) Second Second idling)
    as (_ & _ & _ & _ & Hrejected & _).
  destruct (handleOverride_accepts_only_percentages
              (inl (api.mkOverrideRequest 0 60 "silence")) Second Second idling)
    as (_ & _ & _ & Hzero & _).
  destruct (handleOverride_accepts_only_percentages
              (inl (api.mkOverrideRequest 100 60 "burn-in")) Second Second idling)
    as (_ & _ & _ & _ & _ & Haccepted).
  refine (conj _ (conj _ _)).
  - apply (Hrejected (api.mkOverrideRequest 101 60 "burn-in") eq_refl).
    right. simpl. lia.
  - apply (Hzero (api.mkOverrideRequest 0 60 "silence") eq_refl).
    reflexivity.
  - apply (Haccepted (api.mkOverrideRequest 100 60 "burn-in") eq_refl).
    simpl. lia.
Defined.

(** ** Runs of cycles on constant readings *)

(** A cycle without override and without hints decides on the speed in
    force, the readings and, below the thresholds, the cool-down alone. *)
Lemma controlLoop_auto inp fc cpuMax gpuMax :
  override fc = None -> hints fc = ∅ -> reads cpuMax gpuMax inp ->
  let fcc := FanControl (cfg fc) in
  let out := controlLoop inp fc in
  cycle_target out =
    clamp fcc
      (applyHintMin 0
         (if overThreshold fcc cpuMax gpuMax
          then rampUp fcc (currentSpeed fc) cpuMax gpuMax
          else rampDown fcc (currentSpeed fc) (lastOverThreshold fc)
                        (tDecide inp)))
  /\ cfg (after_cycle out) = cfg fc
  /\ override (after_cycle out) = None
  /\ hints (after_cycle out) = ∅
  /\ currentSpeed (after_cycle out) = cycle_target out
  /\ lastOverThreshold (after_cycle out) =
       if overThreshold fcc cpuMax gpuMax then tDecide inp
       else lastOverThreshold fc.
Proof.
  intros Ho Hh (Hc & Hg) fcc out.
  destruct (controlLoop_anatomy inp fc) as (Ha & Ht & _).
  cbv zeta in Ha, Ht. unfold out. rewrite Ha, Ht. clear Ha Ht.
  set (cpuReading := match cpuRead inp with
                     | inl r => r | inr _ => mkCPUReading [] 0 end) in *.
  set (gpuReading := match gpuRead inp with
                     | inl r => r | inr _ => mkGPUReading [] 0 end) in *.
  assert (Hcm : CPU_Max cpuReading = cpuMax)
    by (unfold cpuReading; destruct (cpuRead inp); [exact Hc|simpl; lia]).
  assert (Hgm : GPU_Max gpuReading = gpuMax)
    by (unfold gpuReading; destruct (gpuRead inp); [exact Hg|simpl; lia]).
  set (mid := cleanExpired _ _).
  assert (Hmid : cfg mid = cfg fc /\ currentSpeed mid = currentSpeed fc
                 /\ lastOverThreshold mid = lastOverThreshold fc
                 /\ override mid = None /\ hints mid = ∅).
  { unfold mid.
    split; [|split; [|split; [|split]]].
    - unfold cleanExpired. simpl. rewrite Ho. reflexivity.
    - unfold cleanExpired. simpl. rewrite Ho. reflexivity.
    - unfold cleanExpired. simpl. rewrite Ho. reflexivity.
    - rewrite cleanExpired_override. simpl. rewrite Ho. reflexivity.
    - rewrite cleanExpired_hints. simpl. rewrite Hh. apply map_filter_empty. }
  destruct Hmid as (Hcfg & Hcur & Hlast & Hov & Hhs).
  destruct (calculateTarget_auto cpuReading gpuReading (tDecide inp) mid Hov)
    as (Ht & _ & _ & Hl).
  destruct (calculateTarget_frame cpuReading gpuReading (tDecide inp) mid)
    as (Hc' & _ & Hh' & Ho' & _).
  rewrite Hcfg, Hcur, Hlast, Hhs, Hcm, Hgm in *. fold fcc in Ht, Hl.
  simpl. unfold hintMinSpeed in Ht. rewrite map_fold_empty in Ht.
  refine (conj Ht (conj Hc' (conj _ (conj Hh' (conj eq_refl Hl))))).
  rewrite Ho'. exact Hov.
Qed.

(** One over-threshold decision on a speed within the limits. *)
Lemma rampUp_step fcc cpuMax gpuMax c :
  0 <= StepSize fcc -> small (StepSize fcc) ->
  0 <= MinSpeed fcc <= MaxSpeed fcc -> small (MaxSpeed fcc) ->
  MinSpeed fcc <= c <= MaxSpeed fcc ->
  clamp fcc (applyHintMin 0 (rampUp fcc c cpuMax gpuMax))
  = if c <? neededSpeed fcc cpuMax gpuMax
    then Z.min (c + stepSize fcc)
               (Z.min (neededSpeed fcc cpuMax gpuMax) (MaxSpeed fcc))
    else c.
Proof.
  intros Hs Hss Hlim Hm Hc.
  pose proof (stepSize_pos _ Hs). pose proof (stepSize_small _ Hss) as Hst.
  unfold clamp, rampUp, go.add.
  rewrite applyHintMin_Zmax, max_Zmax, min_Zmin, Z.gtb_ltb.
  unfold small in *.
  rewrite wrap_fits by (unfold fits, minInt, maxInt; lia).
  rewrite min_Zmin.
  destruct (Z.ltb_spec c (neededSpeed fcc cpuMax gpuMax)); lia.
Qed.

(** One decision past the cool-down on a speed within the limits. *)
Lemma rampDown_step fcc c last now :
  0 <= StepSize fcc -> small (StepSize fcc) -> small (CooldownDelay fcc) ->
  0 <= MinSpeed fcc <= MaxSpeed fcc -> small (MaxSpeed fcc) ->
  MinSpeed fcc <= c <= MaxSpeed fcc ->
  last <> 0 -> now - last > cooldownDuration fcc ->
  clamp fcc (applyHintMin 0 (rampDown fcc c last now))
  = clamp fcc (Z.max (c - stepSize fcc) (baseSpeed fcc)).
Proof.
  intros Hs Hss Hcd Hlim Hm Hc Hl Hpast.
  pose proof (stepSize_pos _ Hs). pose proof (stepSize_small _ Hss) as Hst.
  unfold rampDown, IsZero, go.sub.
  rewrite (Sub_gt_cooldown _ _ _ Hcd).
  destruct (Z.eqb_spec last 0); [congruence|].
  destruct (Z.gtb_spec (now - last) (cooldownDuration fcc)); [|lia].
  unfold small in *.
  rewrite wrap_fits by (unfold fits, minInt, maxInt; lia).
  unfold clamp. rewrite applyHintMin_Zmax, !max_Zmax, !min_Zmin.
  destruct (Z.gtb_spec c (baseSpeed fcc));
    [destruct (Z.ltb_spec (c - stepSize fcc) (baseSpeed fcc))|];
    rewrite ?applyHintMin_Zmax, ?max_Zmax, ?min_Zmin; lia.
Qed.

(** X17: take a controller without override and without hints, on a
    configuration whose step is not configured negative, whose limits have
    [0 <= MinSpeed <= MaxSpeed], and whose step and [MaxSpeed] fit in 32
    bits, with the speed in force within the limits.  A run of cycles that
    all read the same readings over a threshold climbs by one step per
    cycle: when the speed in force is below the needed speed, the target of
    cycle [k] (from 0) is [currentSpeed + (k + 1) * stepSize], capped at the
    needed speed and at [MaxSpeed]; otherwise every target is the speed in
    force. *)
Theorem ramp_up_trajectory inps : forall fc cpuMax gpuMax,
  let fcc := FanControl (cfg fc) in
  let needed := neededSpeed fcc cpuMax gpuMax in
  let c0 := currentSpeed fc in
  override fc = None -> hints fc = ∅ ->
  Forall (reads cpuMax gpuMax) inps ->
  (cpuMax > cpuThreshold fcc \/ gpuMax > gpuThreshold fcc) ->
  0 <= StepSize fcc -> small (StepSize fcc) ->
  0 <= MinSpeed fcc <= MaxSpeed fcc -> small (MaxSpeed fcc) ->
  MinSpeed fcc <= c0 <= MaxSpeed fcc ->
  forall k t,
    (runCycles inps fc).2 !! k = Some t ->
    t = if c0 <? needed
        then Z.min (c0 + (Z.of_nat k + 1) * stepSize fcc)
                   (Z.min needed (MaxSpeed fcc))
        else c0.
Proof.
  induction inps as [|inp rest IH];
    intros fc cpuMax gpuMax fcc needed c0 Ho Hh Hreads Hover Hs Hss Hlim Hm Hc k t Hk.
  - simpl in Hk. rewrite lookup_nil in Hk. discriminate.
  - inversion Hreads as [|? ? Hr Hrest]; subst.
    assert (Hov : overThreshold fcc cpuMax gpuMax = true).
    { unfold overThreshold. apply orb_true_iff.
      destruct Hover; [left|right]; rewrite Z.gtb_ltb; apply Z.ltb_lt; lia. }
    destruct (controlLoop_auto inp fc cpuMax gpuMax Ho Hh Hr)
      as (Ht & Hcfg & Ho1 & Hh1 & Hc1 & _).
    fold fcc in Ht. rewrite Hov in Ht.
    rewrite (rampUp_step fcc cpuMax gpuMax (currentSpeed fc) Hs Hss Hlim Hm Hc) in Ht.
    fold needed c0 in Ht.
    pose proof (stepSize_pos _ Hs) as Hpos.
    simpl in Hk.
    specialize (IH (after_cycle (controlLoop inp fc)) cpuMax gpuMax).
    rewrite Hcfg, Hc1 in IH. fold fcc needed in IH.
    destruct (runCycles rest (after_cycle (controlLoop inp fc))) as [fc' ts].
    simpl in Hk, IH.
    assert (Hrange : MinSpeed fcc <= cycle_target (controlLoop inp fc)
                     <= MaxSpeed fcc).
    { rewrite Ht. destruct (Z.ltb_spec c0 needed); lia. }
    destruct k as [|k].
    + simpl in Hk. injection Hk as <-. rewrite Ht.
      destruct (c0 <? needed); [f_equal; lia|reflexivity].
    + simpl in Hk.
      specialize (IH Ho1 Hh1 Hrest Hover Hs Hss Hlim Hm Hrange k t Hk).
      rewrite IH, Ht. rewrite Nat2Z.inj_succ.
      replace ((Z.succ (Z.of_nat k) + 1) * stepSize fcc)
        with ((Z.of_nat k + 1) * stepSize fcc + stepSize fcc) by ring.
      assert (Hp : 0 < (Z.of_nat k + 1) * stepSize fcc) by nia.
      set (p := (Z.of_nat k + 1) * stepSize fcc) in *.
      subst needed. set (needed := neededSpeed fcc cpuMax gpuMax) in *.
      destruct (Z.ltb_spec c0 needed).
      * destruct (Z.ltb_spec
                    (Z.min (c0 + stepSize fcc) (Z.min needed (MaxSpeed fcc)))
                    needed); lia.
      * destruct (Z.ltb_spec c0 needed); [lia|reflexivity].
Qed.

Lemma ramp_up_trajectory_witness :
  50 = (if currentSpeed idling <? neededSpeed (FanControl (cfg idling)) 90 0
        then Z.min (currentSpeed idling
                    + (Z.of_nat 2 + 1) * stepSize (FanControl (cfg idling)))
                   (Z.min (neededSpeed (FanControl (cfg idling)) 90 0)
                          (MaxSpeed (FanControl (cfg idling))))
        else currentSpeed idling).
Proof.
  apply (ramp_up_trajectory
           [hotCycle (10 * Second); hotCycle (20 * Second);
            hotCycle (30 * Second)] idling 90 0).
  - reflexivity.
  - reflexivity.
  - repeat (constructor; [split; reflexivity|]). constructor.
  - left. vm_compute. reflexivity.
  - vm_compute. discriminate.
  - unfold small. vm_compute. split; discriminate.
  - vm_compute. split; discriminate.
  - unfold small. vm_compute. split; discriminate.
  - vm_compute. split; discriminate.
  - reflexivity.
Defined.

(** X18: take a controller without override and without hints, with
    [lastOverThreshold] set, on a configuration whose step is not configured
    negative, whose limits have [0 <= MinSpeed <= MaxSpeed], and whose step,
    cool-down and [MaxSpeed] fit in 32 bits, with the speed in force within
    the limits.  A run of cycles that all read the same readings below the
    thresholds and all decide past the cool-down descends by one step per
    cycle to the idle speed: the target of cycle [k] (from 0) is
    [currentSpeed - (k + 1) * stepSize], but not below the idle speed,
    clamped to the limits. *)
Theorem cool_down_trajectory inps : forall fc cpuMax gpuMax,
  let fcc := FanControl (cfg fc) in
  let c0 := currentSpeed fc in
  override fc = None -> hints fc = ∅ ->
  Forall (fun inp =>
            reads cpuMax gpuMax inp
            /\ tDecide inp - lastOverThreshold fc > cooldownDuration fcc) inps ->
  cpuMax <= cpuThreshold fcc -> gpuMax <= gpuThreshold fcc ->
  lastOverThreshold fc <> 0 ->
  0 <= StepSize fcc -> small (StepSize fcc) -> small (CooldownDelay fcc) ->
  0 <= MinSpeed fcc <= MaxSpeed fcc -> small (MaxSpeed fcc) ->
  MinSpeed fcc <= c0 <= MaxSpeed fcc ->
  forall k t,
    (runCycles inps fc).2 !! k = Some t ->
    t = clamp fcc (Z.max (c0 - (Z.of_nat k + 1) * stepSize fcc) (baseSpeed fcc)).
Proof.
  induction inps as [|inp rest IH];
    intros fc cpuMax gpuMax fcc c0 Ho Hh Hreads Hcb Hgb Hl Hs Hss Hcd Hlim Hm Hc
           k t Hk.
  - simpl in Hk. rewrite lookup_nil in Hk. discriminate.
  - inversion Hreads as [|? ? (Hr & Hpast) Hrest]; subst.
    assert (Hov : overThreshold fcc cpuMax gpuMax = false).
    { unfold overThreshold. apply orb_false_iff.
      split; rewrite Z.gtb_ltb; apply Z.ltb_ge; lia. }
    destruct (controlLoop_auto inp fc cpuMax gpuMax Ho Hh Hr)
      as (Ht & Hcfg & Ho1 & Hh1 & Hc1 & Hl1).
    fold fcc in Ht, Hl1. rewrite Hov in Ht, Hl1.
    rewrite (rampDown_step fcc (currentSpeed fc) _ _ Hs Hss Hcd Hlim Hm Hc Hl Hpast)
      in Ht.
    fold c0 in Ht.
    pose proof (stepSize_pos _ Hs) as Hpos.
    simpl in Hk.
    specialize (IH (after_cycle (controlLoop inp fc)) cpuMax gpuMax).
    rewrite Hcfg, Hc1, Hl1 in IH. fold fcc in IH.
    destruct (runCycles rest (after_cycle (controlLoop inp fc))) as [fc' ts].
    simpl in Hk, IH.
    assert (Hrange : MinSpeed fcc <= cycle_target (controlLoop inp fc)
                     <= MaxSpeed fcc).
    { rewrite Ht. split; [apply clamp_lower|apply clamp_upper; lia]. }
    destruct k as [|k].
    + simpl in Hk. injection Hk as <-. rewrite Ht. f_equal. lia.
    + simpl in Hk.
      specialize (IH Ho1 Hh1 Hrest Hcb Hgb Hl Hs Hss Hcd Hlim Hm Hrange k t Hk).
      rewrite IH, Ht. rewrite Nat2Z.inj_succ.
      replace ((Z.succ (Z.of_nat k) + 1) * stepSize fcc)
        with ((Z.of_nat k + 1) * stepSize fcc + stepSize fcc) by ring.
      assert (Hp : 0 < (Z.of_nat k + 1) * stepSize fcc) by nia.
      set (p := (Z.of_nat k + 1) * stepSize fcc) in *.
      unfold clamp. rewrite !max_Zmax, !min_Zmin. lia.
Qed.

Lemma cool_down_trajectory_witness :
  20 = clamp (FanControl (cfg cooling))
         (Z.max (currentSpeed cooling
                 - (Z.of_nat 2 + 1) * stepSize (FanControl (cfg cooling)))
                (baseSpeed (FanControl (cfg cooling)))).
Proof.
  apply (cool_down_trajectory
           [coolCycle (1061 * Second); coolCycle (1071 * Second);
            coolCycle (1081 * Second)] cooling 40 0).
  - reflexivity.
  - reflexivity.
  - repeat (constructor;
            [split; [split; reflexivity|vm_compute; reflexivity]|]).
    constructor.
  - vm_compute. discriminate.
  - vm_compute. discriminate.
  - vm_compute. discriminate.
  - vm_compute. discriminate.
  - unfold small. vm_compute. split; discriminate.
  - unfold small. vm_compute. split; discriminate.
  - vm_compute. split; discriminate.
  - unfold small. vm_compute. split; discriminate.
  - vm_compute. split; discriminate.
  - reflexivity.
Defined.
